(** * run_forecast.py: size normalisation, one-hot alignment and stock
      recommendation

    A shallow embedding of [scripts/run_forecast.py].  Python values are
    modelled as follows.

    - Text is [string]; the embedding covers ASCII text (codes below 128),
      on which [str.strip], [str.upper] and [in] are the functions below.
    - A [float] and a NumPy [float64] are IEEE binary64 numbers, given by
      the Standard Library's [spec_float] with [prec = 53], [emax = 1024].
      The builtins [float(str)] and [str(float)] are executable functions
      over that representation.
    - The input is a JSON array of objects.  A key of an object is absent,
      [null] or a string, and the columns of the data frame built from
      them hold Python objects (pandas 1.x and 2.x: text columns have
      dtype [object], a [null] stays [None], a missing key is NaN).
      Numeric JSON cells go through pandas' column type inference and are
      not covered by the embedding of [prepare_features]; [encode_size],
      which is called on a plain Python value, takes numbers as well.
    - Exceptions are values of [exn]; a function that can raise returns
      [result].  A NumPy cast of a float that has no [int64] value (NaN,
      an infinity, a magnitude of 2^63 or more) has no defined result:
      the run is then [Unspecified] and nothing is said about it.  Runs
      with a model whose predictions are integers or finite floats below
      2^53 are never so ([run_is_defined]). *)

From Stdlib Require Import ZArith List String Ascii Bool Lia.
From Stdlib Require Import Floats.SpecFloat.
Import ListNotations.
Local Open Scope string_scope.
Local Open Scope Z_scope.

(** ** Python text primitives *)

Module PyStr.

Definition code (c : ascii) : Z := Z.of_N (N_of_ascii c).

(** [str.isspace] on one ASCII character: TAB..CR, FS..US and SPACE. *)
Definition isspace (c : ascii) : bool :=
  let n := code c in
  ((9 <=? n) && (n <=? 13)) || ((28 <=? n) && (n <=? 32)).

Definition isdigit (c : ascii) : bool :=
  let n := code c in (48 <=? n) && (n <=? 57).

Definition upper_char (c : ascii) : ascii :=
  let n := code c in
  if (97 <=? n) && (n <=? 122) then ascii_of_N (Z.to_N (n - 32)) else c.

Fixpoint upper (s : string) : string :=
  match s with
  | EmptyString => EmptyString
  | String c s' => String (upper_char c) (upper s')
  end.

Fixpoint lstrip (s : string) : string :=
  match s with
  | EmptyString => EmptyString
  | String c s' => if isspace c then lstrip s' else s
  end.

Fixpoint rstrip (s : string) : string :=
  match s with
  | EmptyString => EmptyString
  | String c s' =>
      match rstrip s' with
      | EmptyString => if isspace c then EmptyString else String c EmptyString
      | t => String c t
      end
  end.

Definition strip (s : string) : string := rstrip (lstrip s).

(** [needle in hay] on strings. *)
Fixpoint contains (needle hay : string) : bool :=
  prefix needle hay ||
  match hay with
  | EmptyString => false
  | String _ h => contains needle h
  end.

(** [d.get(k)] on a dict written as a literal: the last binding of a key
    wins, as in a Python dict display. *)
Fixpoint dict_get {V : Type} (d : list (string * V)) (k : string) : option V :=
  match d with
  | [] => None
  | (k', v) :: d' =>
      match dict_get d' k with
      | Some w => Some w
      | None => if String.eqb k' k then Some v else None
      end
  end.

Definition dict_get_default {V : Type} (d : list (string * V)) (k : string) (dflt : V) : V :=
  match dict_get d k with Some v => v | None => dflt end.


(** Decimal rendering of an integer, [str(int)]. *)
Definition digit_char (d : Z) : ascii := ascii_of_N (Z.to_N (48 + d)).

Fixpoint digits_fuel (fuel : nat) (n : Z) (acc : string) : string :=
  match fuel with
  | O => acc
  | S f =>
      let acc' := String (digit_char (n mod 10)) acc in
      if n / 10 =? 0 then acc' else digits_fuel f (n / 10) acc'
  end.

Definition str_nat (n : Z) : string :=
  digits_fuel (S (Z.to_nat (Z.log2 n))) n EmptyString.

Definition str_int (n : Z) : string :=
  if n <? 0 then String "-" (str_nat (- n)) else str_nat n.

End PyStr.

(** ** binary64 *)

Module F64.

Definition prec : Z := 53.
Definition emax : Z := 1024.

Definition float := spec_float.

Definition zero : float := S754_zero false.
Definition nan : float := S754_nan.

Definition mul : float -> float -> float := SFmul prec emax.
Definition add : float -> float -> float := SFadd prec emax.
Definition leb : float -> float -> bool := SFleb.
Definition ltb : float -> float -> bool := SFltb.

Definition isnan (x : float) : bool :=
  match x with S754_nan => true | _ => false end.

Definition isfinite (x : float) : bool :=
  match x with S754_zero _ | S754_finite _ _ _ => true | _ => false end.

(** Conversion of an integer, rounding to nearest even. *)
Definition of_Z (z : Z) : float := binary_normalize prec emax z 0 false.

(** The binary64 nearest to the rational [n / d], ties to even. *)
Definition of_ratio (neg : bool) (n d : positive) : float :=
  let '(q, e, l) := SFdiv_core_binary prec emax (Zpos n) 0 (Zpos d) 0 in
  binary_round_aux prec emax neg q e l.

(** The binary64 nearest to [m * 10^e]. *)
Definition of_decimal (neg : bool) (m : Z) (e : Z) : float :=
  match m with
  | Zpos p =>
      if 0 <=? e then of_ratio neg (p * Z.to_pos (10 ^ e)) 1
      else of_ratio neg p (Z.to_pos (10 ^ (- e)))
  | _ => S754_zero neg
  end.

(** Integer part, towards zero; [None] for NaN and the infinities. *)
Definition trunc (x : float) : option Z :=
  match x with
  | S754_zero _ => Some 0
  | S754_finite s m e =>
      let a := if 0 <=? e then Zpos m * 2 ^ e else Zpos m / 2 ^ (- e) in
      Some (if s then - a else a)
  | _ => None
  end.

(** [n / d] rounded to the nearest integer, ties to even. *)
Definition nearest_even (n d : Z) : Z :=
  let q := n / d in
  let r := n mod d in
  match Z.compare (2 * r) d with
  | Lt => q
  | Gt => q + 1
  | Eq => if Z.even q then q else q + 1
  end.

(** Nearest integer, ties to even, as an integer; [None] for NaN and the
    infinities. *)
Definition rint_Z (x : float) : option Z :=
  match x with
  | S754_zero _ => Some 0
  | S754_finite s m e =>
      let a :=
        if 0 <=? e then Zpos m * 2 ^ e
        else nearest_even (Zpos m) (2 ^ (- e)) in
      Some (if s then - a else a)
  | _ => None
  end.

(** [numpy.rint] / [ndarray.round()]: the float holding that integer; a
    float with no fractional bits is its own rounding. *)
Definition rint (x : float) : float :=
  match x with
  | S754_finite s _ e =>
      if 0 <=? e then x
      else
        match rint_Z x with
        | Some 0 => S754_zero s
        | Some z => of_Z z
        | None => x
        end
  | _ => x
  end.

End F64.

(** ** The builtins [float(str)] and [str(float)] *)

Module PyFloat.
Import F64.

(** Removal of digit-group underscores, as CPython does before it parses
    a number: an underscore must stand between two digits. *)
Fixpoint remove_underscores (prev : ascii) (s : string) : option string :=
  match s with
  | EmptyString => if Ascii.eqb prev "_" then None else Some EmptyString
  | String c s' =>
      if Ascii.eqb c "_" then
        if PyStr.isdigit prev then remove_underscores c s' else None
      else if Ascii.eqb prev "_" && negb (PyStr.isdigit c) then None
      else option_map (String c) (remove_underscores c s')
  end.

Definition take_sign (s : string) : bool * string :=
  match s with
  | String "-" s' => (true, s')
  | String "+" s' => (false, s')
  | _ => (false, s)
  end.

(** Reads a run of digits: the value accumulated onto [acc], the number
    of digits read and the rest of the text. *)
Fixpoint take_digits (s : string) (acc cnt : Z) : Z * Z * string :=
  match s with
  | String c s' =>
      if PyStr.isdigit c then take_digits s' (10 * acc + (PyStr.code c - 48)) (cnt + 1)
      else (acc, cnt, s)
  | EmptyString => (acc, cnt, s)
  end.

Definition lower_char (c : ascii) : ascii :=
  let n := PyStr.code c in
  if (65 <=? n) && (n <=? 90) then ascii_of_N (Z.to_N (n + 32)) else c.

Fixpoint lower (s : string) : string :=
  match s with
  | EmptyString => EmptyString
  | String c s' => String (lower_char c) (lower s')
  end.

Definition parse_exponent (s : string) : option Z :=
  let '(neg, s1) := take_sign s in
  let '(ev, ne, rest) := take_digits s1 0 0 in
  if (0 <? ne) && String.eqb rest "" then Some (if neg then - ev else ev)
  else None.

(** A decimal literal: digits with an optional point and an optional
    exponent, at least one digit in the mantissa. *)
Definition parse_decimal (neg : bool) (s : string) : option float :=
  let '(ip, ni, r1) := take_digits s 0 0 in
  let '(m, nf, r2) :=
    match r1 with
    | String "." r => take_digits r ip 0
    | _ => (ip, 0, r1)
    end in
  if ni + nf =? 0 then None
  else
    match r2 with
    | EmptyString => Some (of_decimal neg m (- nf))
    | String c r3 =>
        if Ascii.eqb c "e" || Ascii.eqb c "E" then
          match parse_exponent r3 with
          | Some ev => Some (of_decimal neg m (ev - nf))
          | None => None
          end
        else None
    end.

Definition parse_inf_or_nan (neg : bool) (s : string) : option float :=
  let t := lower s in
  if String.eqb t "inf" || String.eqb t "infinity" then Some (S754_infinity neg)
  else if String.eqb t "nan" then Some S754_nan
  else None.

(** [float(s)] for a string [s]; [None] stands for [ValueError]. *)
Definition of_string (s : string) : option float :=
  match remove_underscores "000" (PyStr.strip s) with
  | None => None
  | Some t =>
      let '(neg, body) := take_sign t in
      match parse_decimal neg body with
      | Some x => Some x
      | None => parse_inf_or_nan neg body
      end
  end.

(** *** Shortest decimal rendering *)

Definition float_eqb (x y : float) : bool :=
  match x, y with
  | S754_zero a, S754_zero b => Bool.eqb a b
  | S754_infinity a, S754_infinity b => Bool.eqb a b
  | S754_nan, S754_nan => true
  | S754_finite a m e, S754_finite b m' e' =>
      Bool.eqb a b && Pos.eqb m m' && Z.eqb e e'
  | _, _ => false
  end.

(** [10^k <= n / d] *)
Definition le_pow10 (k n d : Z) : bool :=
  if 0 <=? k then 10 ^ k * d <=? n else d <=? n * 10 ^ (- k).

Fixpoint log10_up (fuel : nat) (k n d : Z) : Z :=
  match fuel with
  | O => k
  | S f => if le_pow10 (k + 1) n d then log10_up f (k + 1) n d else k
  end.

(** Floor of the decimal logarithm of the positive rational [n / d]. *)
Definition floor_log10 (n d : Z) : Z :=
  log10_up 6 ((Z.log2 n - Z.log2 d) * 30103 / 100000 - 2) n d.

(** The shortest digit string that reads back as the same float, the
    nearest to the float among those of that length: a coefficient [c]
    and a scale [s] with value [c * 10^s]. *)
Fixpoint shortest (fuel : nat) (x : float) (n d k digits : Z) : Z * Z :=
  let s := k - digits + 1 in
  let '(p, q) := if 0 <=? s then (n, d * 10 ^ s) else (n * 10 ^ (- s), d) in
  let lo := p / q in
  let r := p mod q in
  let hi := lo + 1 in
  let lo_ok := float_eqb (of_decimal false lo s) x in
  let hi_ok := float_eqb (of_decimal false hi s) x in
  let nearest :=
    match Z.compare (2 * r) q with
    | Lt => lo
    | Gt => hi
    | Eq => if Z.even lo then lo else hi
    end in
  match fuel with
  | O => (nearest, s)
  | S f =>
      if lo_ok && hi_ok then (nearest, s)
      else if lo_ok then (lo, s)
      else if hi_ok then (hi, s)
      else shortest f x n d k (digits + 1)
  end.

Fixpoint strip_zeros (fuel : nat) (c s : Z) : Z * Z :=
  match fuel with
  | O => (c, s)
  | S f => if (c mod 10 =? 0) && negb (c =? 0) then strip_zeros f (c / 10) (s + 1) else (c, s)
  end.

Fixpoint zeros (n : nat) : string :=
  match n with O => EmptyString | S n' => String "0" (zeros n') end.

Definition substring_from (n : nat) (s : string) : string :=
  substring n (String.length s - n) s.

(** The layout of [repr]: positional when the decimal point falls within
    (-4, 16], scientific otherwise. *)
Definition layout (ds : string) (decpt : Z) : string :=
  let nd := Z.of_nat (String.length ds) in
  if (decpt <=? -4) || (16 <? decpt) then
    let e := decpt - 1 in
    let mant :=
      match ds with
      | String c EmptyString => ds
      | String c rest => String c (String "." rest)
      | EmptyString => ds
      end in
    let ex := PyStr.str_nat (Z.abs e) in
    let ex2 := if Z.abs e <? 10 then String "0" ex else ex in
    mant ++ "e" ++ (if e <? 0 then "-" else "+") ++ ex2
  else if decpt <=? 0 then
    "0." ++ zeros (Z.to_nat (- decpt)) ++ ds
  else if nd <=? decpt then
    ds ++ zeros (Z.to_nat (decpt - nd)) ++ ".0"
  else
    substring 0 (Z.to_nat decpt) ds ++ "." ++ substring_from (Z.to_nat decpt) ds.

(** [str(x)] and [repr(x)] for a float. *)
Definition to_string (x : float) : string :=
  match x with
  | S754_nan => "nan"
  | S754_infinity s => if s then "-inf" else "inf"
  | S754_zero s => if s then "-0.0" else "0.0"
  | S754_finite sg m e =>
      let '(n, d) := if 0 <=? e then (Zpos m * 2 ^ e, 1) else (Zpos m, 2 ^ (- e)) in
      let k := floor_log10 n d in
      let '(c0, s0) := shortest 16 (S754_finite false m e) n d k 1 in
      let '(c, s) := strip_zeros 20 c0 s0 in
      let ds := PyStr.str_nat c in
      let body := layout ds (Z.of_nat (String.length ds) + s) in
      if sg then String "-" body else body
  end.

End PyFloat.

(** ** Python values and exceptions *)

(** The values a size, a type or a cell of the data frame can hold. *)
Inductive pyval :=
  | PNone
  | PStr (s : string)
  | PInt (z : Z)
  | PFloat (x : F64.float).

Inductive exn :=
  | ValueError (msg : string)
  | FileNotFoundError (msg : string)
  | OtherError (msg : string).

(** [str(e)] *)
Definition exn_message (e : exn) : string :=
  match e with
  | ValueError m | FileNotFoundError m | OtherError m => m
  end.

Inductive result (A : Type) :=
  | Ok (a : A)
  | Raise (e : exn)
  | Undefined.
Arguments Ok {A} a.
Arguments Raise {A} e.
Arguments Undefined {A}.

Definition bind {A B : Type} (r : result A) (k : A -> result B) : result B :=
  match r with
  | Ok a => k a
  | Raise e => Raise e
  | Undefined => Undefined
  end.

Notation "x <- c ;; k" := (bind c (fun x => k))
  (at level 61, c at next level, right associativity).

(** [str(v)] *)
Definition py_str (v : pyval) : string :=
  match v with
  | PNone => "None"
  | PStr s => s
  | PInt z => PyStr.str_int z
  | PFloat x => PyFloat.to_string x
  end.

(** [pd.isna(v)] on a scalar, which is also what [Series.notna] negates
    cell by cell. *)
Definition isna (v : pyval) : bool :=
  match v with
  | PNone => true
  | PFloat x => F64.isnan x
  | _ => false
  end.

Definition notna (v : pyval) : bool := negb (isna v).

Definition is_None (v : pyval) : bool :=
  match v with PNone => true | _ => false end.

(** [float(v)]; [None] stands for the exception it raises ([TypeError]
    on [None], [ValueError] on unreadable text, [OverflowError] on an
    integer beyond the float range). *)
Definition py_float (v : pyval) : option F64.float :=
  match v with
  | PNone => None
  | PStr s => PyFloat.of_string s
  | PInt z => let x := F64.of_Z z in if F64.isfinite x then Some x else None
  | PFloat x => Some x
  end.

(** [int(x)] for a float; [None] stands for the exception on NaN and on
    an infinity. *)
Definition py_int (x : F64.float) : option Z := F64.trunc x.

(** ** Ordinal encoders *)

Definition category_map : list (string * Z) :=
  [ ("Uniform No 3", 0); ("Uniform No 4", 1); ("T-Shirt", 2);
    ("T Shirt", 2); ("TShirt", 2); ("Others", -1) ].

Definition encode_category (category : pyval) : Z :=
  match category with
  | PStr s => PyStr.dict_get_default category_map s (-1)
  | _ => -1
  end.



Definition encode_size_map : list (string * Z) :=
  [ ("XS", 0); ("S", 1); ("M", 2); ("L", 3); ("XL", 4); ("2XL", 5);
    ("3XL", 6); ("XXL", 7); ("XXXL", 8); ("4XL", 9); ("5XL", 10) ].

Definition f4 : F64.float := F64.of_Z 4.
Definition f13 : F64.float := F64.of_Z 13.
Definition f6_5 : F64.float := F64.of_decimal false 65 (-1).
Definition f8_0 : F64.float := F64.of_decimal false 80 (-1).

(** The body of the [try] block of [encode_size]; [None] is an exception,
    which the bare [except] turns into [-1]. *)
Definition encode_size_numeric (size : pyval) : option Z :=
  match py_float size with
  | None => None
  | Some size_num =>
      if F64.leb f4 size_num && F64.leb size_num f13 then
        option_map (fun i => i + 6) (py_int size_num)
      else if F64.leb f6_5 size_num && F64.leb size_num f8_0 then
        option_map (fun i => i + 5) (py_int (F64.mul size_num f4))
      else py_int size_num
  end.

Definition encode_size (size : pyval) : Z :=
  if isna size || is_None size ||
     match size with PStr s => String.eqb s "" | _ => false end
  then -1
  else
    match (match size with
           | PStr s => PyStr.dict_get encode_size_map s
           | _ => None
           end) with
    | Some code => code
    | None =>
        match encode_size_numeric size with
        | Some code => code
        | None => -1
        end
    end.

(** ** Size normalisation *)

Definition cloth_size_map : list (string * string) :=
  [ ("XXS", "XXS"); ("XS", "XS"); ("S", "S"); ("M", "M"); ("L", "L");
    ("XL", "XL"); ("XXL", "XXL"); ("XXXL", "XXXL");
    ("2XL", "XXL"); ("3XL", "XXXL"); ("4XL", "4XL"); ("5XL", "5XL") ].

Definition normalize_cloth_size (size : pyval) : pyval :=
  if isna size || is_None size then PNone
  else
    let size_str := PyStr.upper (PyStr.strip (py_str size)) in
    PStr (PyStr.dict_get_default cloth_size_map size_str size_str).

(** One pass of the body of the loop of [prepare_features]: the value
    stored in [size_normalized] for a row, from the row's
    [uniform_type_gendered] and [size] cells. *)
Definition normalize_row_size (uniform_type_gendered original_size : pyval) : pyval :=
  let uniform_type := PyStr.upper (py_str uniform_type_gendered) in
  if PyStr.contains "BAJU" uniform_type then
    normalize_cloth_size original_size
  else if existsb (fun x => PyStr.contains x uniform_type) ["BOOT"; "BERET"] then
    match py_float original_size with
    | Some x => PFloat x
    | None => PNone
    end
  else PStr (py_str original_size).

(** ** Input records and the data frame *)

(** A key of an input object: missing, [null] or a string. *)
Inductive field :=
  | Absent
  | Null
  | Text (s : string).

Record record := {
  r_type : field;
  r_uniform_type : field;
  r_size : field;
  r_category : field
}.

Definition is_present (f : field) : bool :=
  match f with Absent => false | _ => true end.

(** [key in df.columns] for [df = pd.DataFrame(data)]: the columns are
    the keys that occur in at least one record. *)
Definition has_column (key : record -> field) (data : list record) : bool :=
  existsb (fun r => is_present (key r)) data.

(** The cell of a record under an existing column: a missing key is
    filled with NaN. *)
Definition cell (f : field) : pyval :=
  match f with
  | Absent => PFloat F64.nan
  | Null => PNone
  | Text s => PStr s
  end.

Definition enumerate {A : Type} (l : list A) : list (nat * A) :=
  combine (seq 0 (List.length l)) l.

(** Assignment at a position of a column.  The position always comes
    from the iteration over the same column, so it is in range; out of
    range the column is left as it is. *)
Fixpoint set_nth {A : Type} (i : nat) (v : A) (l : list A) : list A :=
  match l, i with
  | [], _ => []
  | _ :: t, O => v :: t
  | x :: t, S j => x :: set_nth j v t
  end.

(** The loop over [df.iterrows()]: [size_normalized] starts as a copy of
    [size] and is overwritten row by row through [df.at]. *)
Definition normalize_sizes (uniform_type_gendered size : list pyval) : list pyval :=
  fold_left
    (fun size_normalized '(idx, (t, original_size)) =>
       set_nth idx (normalize_row_size t original_size) size_normalized)
    (enumerate (combine uniform_type_gendered size))
    size.

Record row := {
  source : record;
  uniform_type_gendered : pyval;
  size_normalized : pyval;
  size : pyval
}.

Record frame := {
  has_type : bool;
  has_uniform_type : bool;
  has_category : bool;
  rows : list row
}.

Fixpoint zip_rows (data : list record) (utg sn sz : list pyval) : list row :=
  match data, utg, sn, sz with
  | r :: data', t :: utg', n :: sn', s :: sz' =>
      {| source := r; uniform_type_gendered := t;
         size_normalized := n; size := s |} :: zip_rows data' utg' sn' sz'
  | _, _, _, _ => []
  end.

(** [df['size'] = df['size_normalized'].astype(str)] on one row. *)
Definition stringify_size (r : row) : row :=
  {| source := source r;
     uniform_type_gendered := uniform_type_gendered r;
     size_normalized := size_normalized r;
     size := PStr (py_str (size_normalized r)) |}.

Definition prepare_features (historical_data : list record) : result frame :=
  utg <- (if has_column r_type historical_data then
            Ok (map (fun r => cell (r_type r)) historical_data)
          else if has_column r_uniform_type historical_data then
            Ok (map (fun r => cell (r_uniform_type r)) historical_data)
          else
            Raise (ValueError
              "historical_data must contain 'type' or 'uniform_type' column")) ;;
  if negb (has_column r_size historical_data) then
    Raise (ValueError "historical_data must contain 'size' column")
  else
    let size_col := map (fun r => cell (r_size r)) historical_data in
    let df := zip_rows historical_data utg (normalize_sizes utg size_col) size_col in
    let df := filter (fun r => notna (size_normalized r)) df in
    if (List.length df =? 0)%nat then
      Raise (ValueError "No valid data after filtering null sizes")
    else
      Ok {| has_type := has_column r_type historical_data;
            has_uniform_type := has_column r_uniform_type historical_data;
            has_category := has_column r_category historical_data;
            rows := map stringify_size df |}.

(** ** One-hot encoding and alignment *)

Definition matrix := list (list F64.float).

Definition one : F64.float := F64.of_Z 1.

Definition float_of_bool (b : bool) : F64.float := if b then one else F64.zero.

Fixpoint insert_sorted (s : string) (l : list string) : list string :=
  match l with
  | [] => [s]
  | x :: l' =>
      match String.compare s x with
      | Lt => s :: l
      | Eq => l
      | Gt => x :: insert_sorted s l'
      end
  end.

(** The categories of a column: its distinct non-null values, sorted. *)
Definition categories (col : list pyval) : list string :=
  fold_right
    (fun v acc => match v with PStr s => insert_sorted s acc | _ => acc end)
    [] col.

Definition dummies (prefix : string) (col : list pyval) : list (string * list bool) :=
  map (fun v =>
         (prefix ++ "_" ++ v,
          map (fun c => match c with PStr s => String.eqb s v | _ => false end) col))
      (categories col).

(** [pd.get_dummies(X, columns=['uniform_type_gendered', 'size'])]: the
    indicator columns of the batch, by name. *)
Definition get_dummies (df : list row) : list (string * list bool) :=
  dummies "uniform_type_gendered" (map uniform_type_gendered df)
  ++ dummies "size" (map size df).

(** [X_encoded[feat].values] when [feat in X_encoded.columns]. *)
Definition column_of (X_encoded : list (string * list bool)) (feat : string)
  : option (list bool) :=
  option_map snd (find (fun c => String.eqb (fst c) feat) X_encoded).

Definition zeros (n k : nat) : matrix := repeat (repeat F64.zero k) n.

(** [X[:, i] = values] *)
Definition set_column (i : nat) (values : list F64.float) (X : matrix) : matrix :=
  map (fun '(r, v) => set_nth i v r) (combine X values).

(** The alignment loop over [enumerate(expected_features)]. *)
Definition align (expected_features : list string)
    (X_encoded : list (string * list bool)) (n : nat) : matrix :=
  fold_left
    (fun X '(i, feat) =>
       match column_of X_encoded feat with
       | Some values => set_column i (map float_of_bool values) X
       | None => X
       end)
    (enumerate expected_features)
    (zeros n (List.length expected_features)).

(** [X_encoded.values]: the rows of the indicator table. *)
Definition values_of (X_encoded : list (string * list bool)) (n : nat) : matrix :=
  map (fun i => map (fun c => float_of_bool (nth i (snd c) false)) X_encoded)
      (seq 0 n).

(** [np.nan_to_num(X, nan=0.0, posinf=0.0, neginf=0.0)] *)
Definition nan_to_num (X : matrix) : matrix :=
  map (map (fun x => if F64.isfinite x then x else F64.zero)) X.

(** ** The model *)

(** What [model.predict(X)] yields: an integer vector, a float vector,
    or an exception. *)
Inductive prediction :=
  | IntVector (v : list Z)
  | FloatVector (v : list F64.float)
  | PredictRaises (msg : string).

(** A loaded estimator.  [feature_names_in_] is [None] when the
    attribute does not exist; [get_feature_names_out] is [None] when the
    method does not exist and [Some None] when calling it raises. *)
Record model := {
  feature_names_in_ : option (list string);
  get_feature_names_out : option (option (list string));
  predict : matrix -> prediction
}.

Definition expected_features_of (m : model) : option (list string) :=
  match feature_names_in_ m with
  | Some names => Some names
  | None =>
      match get_feature_names_out m with
      | Some (Some names) => Some names
      | _ => None
      end
  end.

(** The matrix handed to [model.predict]. *)
Definition feature_matrix (m : model) (input_df : list row) : matrix :=
  let X_encoded := get_dummies input_df in
  let X :=
    match expected_features_of m with
    | Some expected_features =>
        align expected_features X_encoded (List.length input_df)
    | None => values_of X_encoded (List.length input_df)
    end in
  nan_to_num X.

(** ** Prediction and stock recommendation *)

Definition int64_min : Z := - 2 ^ 63.
Definition int64_max : Z := 2 ^ 63 - 1.

(** [ndarray.astype(int)] on one [float64] element: truncation, defined
    only when the truncated value is an [int64]. *)
Definition astype_int (x : F64.float) : result Z :=
  match F64.trunc x with
  | Some z => if (int64_min <=? z) && (z <=? int64_max) then Ok z else Undefined
  | None => Undefined
  end.

(** [np.maximum(x, 0)] on one [float64] element; NaN propagates. *)
Definition maximum0 (x : F64.float) : F64.float :=
  if F64.isnan x then x else if F64.ltb x F64.zero then F64.zero else x.

Fixpoint mapM {A B : Type} (f : A -> result B) (l : list A) : result (list B) :=
  match l with
  | [] => Ok []
  | a :: l' => b <- f a ;; bs <- mapM f l' ;; Ok (b :: bs)
  end.

(** The float constant [1.15]. *)
Definition buffer : F64.float := F64.of_decimal false 115 (-2).

(** [(p * 1.15).round()] for an integer [p] of the prediction vector. *)
Definition buffered (p : Z) : F64.float :=
  F64.rint (F64.mul (F64.of_Z p) buffer).

Record predicted_row := {
  base : row;
  predicted_demand : Z;
  recommended_stock : Z
}.

Fixpoint attach (df : list row) (demand stock : list Z) : list predicted_row :=
  match df, demand, stock with
  | r :: df', d :: demand', s :: stock' =>
      {| base := r; predicted_demand := d; recommended_stock := s |}
      :: attach df' demand' stock'
  | _, _, _ => []
  end.

Definition is_empty_vector (p : prediction) : bool :=
  match p with
  | IntVector [] | FloatVector [] => true
  | _ => false
  end.

(** The [try] block around [model.predict]: an exception of the call, or
    of the summary line printed after it (the minimum of an empty vector),
    is replaced by a vector of 2s. *)
Definition predictions_or_fallback (m : model) (X : matrix) (n : nat) : prediction :=
  match predict m X with
  | PredictRaises _ => IntVector (repeat 2 n)
  | p => if is_empty_vector p then IntVector (repeat 2 n) else p
  end.

(** [np.maximum(predictions, 0).astype(int)] *)
Definition nonnegative_ints (p : prediction) : result (list Z) :=
  match p with
  | IntVector v => Ok (map (fun z => Z.max z 0) v)
  | FloatVector v => mapM (fun x => astype_int (maximum0 x)) v
  | PredictRaises _ => Ok []
  end.

Definition length_mismatch (values index : nat) : exn :=
  ValueError ("Length of values (" ++ PyStr.str_int (Z.of_nat values)
              ++ ") does not match length of index ("
              ++ PyStr.str_int (Z.of_nat index) ++ ")").

Definition predict_demand (m : model) (input_df : list row)
  : result (list predicted_row) :=
  let n := List.length input_df in
  let X := feature_matrix m input_df in
  predictions <- nonnegative_ints (predictions_or_fallback m X n) ;;
  if negb (List.length predictions =? n)%nat then
    Raise (length_mismatch (List.length predictions) n)
  else
    stock <- mapM (fun p => astype_int (buffered p)) predictions ;;
    Ok (attach input_df predictions (map (fun x => Z.max x 2) stock)).

(** ** The program *)

#[local] Set Warnings "-register-all".

Inductive json :=
  | JNull
  | JBool (b : bool)
  | JInt (z : Z)
  | JString (s : string)
  | JArray (l : list json)
  | JObject (members : list (string * json)).

(** What [json.load(sys.stdin)] gives: an exception, a value that is not
    a list, or a list of records. *)
Inductive stdin :=
  | Malformed (msg : string)
  | NotAList
  | Records (data : list record).

(** What [load_model] finds at [MODEL_PATH]. *)
Inductive artifact :=
  | NoFile
  | LoadRaises (e : exn)
  | Loaded (m : model).

Definition load_model (MODEL_PATH : string) (a : artifact) : result model :=
  match a with
  | NoFile => Raise (FileNotFoundError ("Model file not found: " ++ MODEL_PATH))
  | LoadRaises e => Raise e
  | Loaded m => Ok m
  end.

(** [row.get(key, default)] on a row of the frame. *)
Definition row_get (present : bool) (c : field) (default : pyval) : pyval :=
  if present then cell c else default.

Definition recommendation (df : frame) (r : predicted_row) : json :=
  let src := source (base r) in
  JObject
    [ ("category",
       JString (py_str (row_get (has_category df) (r_category src)
                  (row_get (has_uniform_type df) (r_uniform_type src) (PStr "Others")))));
      ("type",
       JString (py_str (row_get (has_type df) (r_type src)
                  (row_get (has_uniform_type df) (r_uniform_type src) (PStr "Unknown")))));
      ("size",
       if notna (size (base r)) then JString (py_str (size (base r))) else JNull);
      ("forecasted_demand", JInt (predicted_demand r));
      ("recommended_stock", JInt (recommended_stock r)) ].

(** The body of the [try] of [main]: the object printed on success. *)
Definition main_body (MODEL_PATH : string) (a : artifact) (input : stdin) : result json :=
  match input with
  | Malformed msg => Raise (ValueError msg)
  | NotAList =>
      Raise (ValueError "Input must be a JSON array of historical data records")
  | Records input_data =>
      if (List.length input_data =? 0)%nat then
        Ok (JObject [("success", JBool true); ("recommendations", JArray [])])
      else
        m <- load_model MODEL_PATH a ;;
        features_df <- prepare_features input_data ;;
        results_df <- predict_demand m (rows features_df) ;;
        let recommendations := map (recommendation features_df) results_df in
        Ok (JObject
              [ ("success", JBool true);
                ("recommendations", JArray recommendations);
                ("count", JInt (Z.of_nat (List.length recommendations))) ])
  end.

Definition error_output (error message : string) : json :=
  JObject [ ("success", JBool false); ("error", JString error);
            ("message", JString message) ].

(** A run of the script: the object written to standard output and the
    exit status, or no defined behaviour. *)
Inductive outcome :=
  | Exit (printed : json) (status : Z)
  | Unspecified.

Definition main (MODEL_PATH : string) (a : artifact) (input : stdin) : outcome :=
  match main_body MODEL_PATH a input with
  | Ok output => Exit output 0
  | Raise (FileNotFoundError msg) =>
      Exit (error_output msg
              "Model file not found. Please ensure the model is uploaded to models/uniform_forecast.pkl")
           1
  | Raise e =>
      Exit (error_output (exn_message e) ("Prediction error: " ++ exn_message e)) 1
  | Undefined => Unspecified
  end.

(** Lookup of a member of a JSON object. *)
Fixpoint member (key : string) (members : list (string * json)) : option json :=
  match members with
  | [] => None
  | (k, v) :: rest => if String.eqb k key then Some v else member key rest
  end.

Definition json_get (key : string) (j : json) : option json :=
  match j with
  | JObject members => member key members
  | _ => None
  end.

(** ** Vocabulary of the statements *)

(** The [uniform_type_gendered] cell of a record of a batch: the [type]
    column when the batch has one, the [uniform_type] column otherwise. *)
Definition type_cell (data : list record) (r : record) : pyval :=
  if has_column r_type data then cell (r_type r) else cell (r_uniform_type r).

(** The normalised size of a record of a batch. *)
Definition canonical_size (data : list record) (r : record) : pyval :=
  normalize_row_size (type_cell data r) (cell (r_size r)).

(** The records of a batch whose normalised size is not null, in the
    order of the batch. *)
Definition survivors (data : list record) : list record :=
  filter (fun r => notna (canonical_size data r)) data.

Definition prepared_row (data : list record) (r : record) : row :=
  {| source := r;
     uniform_type_gendered := type_cell data r;
     size_normalized := canonical_size data r;
     size := PStr (py_str (canonical_size data r)) |}.

(** The category family of a type, decided as the loop of
    [prepare_features] decides it: the test for "BAJU" comes first. *)
Inductive family := APPAREL | MEASURED | OTHER.

Definition family_of (t : pyval) : family :=
  let uniform_type := PyStr.upper (py_str t) in
  if PyStr.contains "BAJU" uniform_type then APPAREL
  else if existsb (fun x => PyStr.contains x uniform_type) ["BOOT"; "BERET"]
       then MEASURED
       else OTHER.

(** The synonym table of the apparel sizes. *)
Definition synonym (token : string) : string :=
  if String.eqb token "2XL" then "XXL"
  else if String.eqb token "3XL" then "XXXL"
  else token.

(** The cell of row [r] under the vocabulary entry [feat]: the value of
    the batch's indicator column of that name, 0 when the batch has no
    such column. *)
Definition aligned_cell (X_encoded : list (string * list bool))
    (feat : string) (r : nat) : F64.float :=
  match column_of X_encoded feat with
  | Some values => float_of_bool (nth r values false)
  | None => F64.zero
  end.

(** The object printed for a non-empty batch. *)
Definition success_output (recs : list json) : json :=
  JObject [ ("success", JBool true); ("recommendations", JArray recs);
            ("count", JInt (Z.of_nat (List.length recs))) ].

(** What a row of the result satisfies: the demand is not negative and
    the stock is the buffered demand, rounded to the nearest integer
    (ties to even), and at least 2. *)
Definition stock_rule (r : predicted_row) : Prop :=
  0 <= predicted_demand r
  /\ exists k, F64.rint_Z (F64.mul (F64.of_Z (predicted_demand r)) buffer) = Some k
               /\ recommended_stock r = Z.max k 2.

(** The body of the alignment loop seen on one row of the matrix. *)
Definition align_row (X_encoded : list (string * list bool)) (r : nat)
    (row : list F64.float) (step : nat * string) : list F64.float :=
  let '(i, feat) := step in
  match column_of X_encoded feat with
  | Some values => set_nth i (float_of_bool (nth r values false)) row
  | None => row
  end.

(** The text of the [type] and [category] members of a recommendation. *)
Definition type_text (data : list record) (r : record) : string :=
  py_str (row_get (has_column r_type data) (r_type r)
            (row_get (has_column r_uniform_type data) (r_uniform_type r)
               (PStr "Unknown"))).

Definition category_text (data : list record) (r : record) : string :=
  py_str (row_get (has_column r_category data) (r_category r)
            (row_get (has_column r_uniform_type data) (r_uniform_type r)
               (PStr "Others"))).

(** A recommendation [rec] is the entry of the record [r] of the batch. *)
Definition entry_of (data : list record) (rec : json) (r : record) : Prop :=
  json_get "category" rec = Some (JString (category_text data r))
  /\ json_get "type" rec = Some (JString (type_text data r))
  /\ json_get "size" rec = Some (JString (py_str (canonical_size data r))).

(** The row that the fallback gives for a row of the frame. *)
Definition fallback_row (r : row) : predicted_row :=
  {| base := r; predicted_demand := 2; recommended_stock := 2 |}.

(** Predictions for which every cast of [predict_demand] is defined:
    integers, or floats with an integer part, below [2^53]. *)
Definition sane_prediction (p : prediction) : Prop :=
  match p with
  | IntVector v => Forall (fun z => z < 2 ^ 53) v
  | FloatVector v =>
      Forall (fun x => exists z, F64.trunc x = Some z /\ z < 2 ^ 53) v
  | PredictRaises _ => True
  end.

(** ** A sample batch and sample models *)

Module Sample.

Definition item (t : string) (s : field) : record :=
  {| r_type := Text t; r_uniform_type := Absent; r_size := s;
     r_category := Absent |}.

Definition batch : list record :=
  [ item "BAJU_NO_3_LELAKI" (Text "2xl");
    item "BOOT" (Text "9");
    item "BOOT" (Text "wide");
    item "Belt" Null;
    item "BAJU_NO_4" (Text " m ") ].

(** A model with a vocabulary whose prediction for a row is 12.5 times
    the number of its non-zero features. *)
Definition scorer : model :=
  {| feature_names_in_ :=
       Some ["size_XXL"; "size_9.0"; "size_S"; "uniform_type_gendered_BOOT"];
     get_feature_names_out := None;
     predict := fun X =>
       FloatVector
         (map (fun r =>
                 F64.of_decimal false
                   (125 * Z.of_nat (List.length
                      (filter (fun x => F64.ltb F64.zero x) r))) (-1)) X) |}.

(** A model whose [predict] raises. *)
Definition broken : model :=
  {| feature_names_in_ := None;
     get_feature_names_out := Some None;
     predict := fun _ => PredictRaises "X has 8 features, but the estimator expects 41" |}.

(** A model whose predictions are not numbers. *)
Definition undecided : model :=
  {| feature_names_in_ := None;
     get_feature_names_out := None;
     predict := fun X => FloatVector (map (fun _ => F64.nan) X) |}.

Definition path : string := "models/uniform_forecast.pkl".

Definition rec_boot_9 : json :=
  JObject [ ("category", JString "Others"); ("type", JString "BOOT");
            ("size", JString "9.0"); ("forecasted_demand", JInt 25);
            ("recommended_stock", JInt 29) ].

(** What the script prints for [batch] under [scorer]. *)
Definition recommendations : list json :=
  [ JObject [ ("category", JString "Others"); ("type", JString "BAJU_NO_3_LELAKI");
              ("size", JString "XXL"); ("forecasted_demand", JInt 12);
              ("recommended_stock", JInt 14) ];
    rec_boot_9;
    JObject [ ("category", JString "Others"); ("type", JString "Belt");
              ("size", JString "None"); ("forecasted_demand", JInt 0);
              ("recommended_stock", JInt 2) ];
    JObject [ ("category", JString "Others"); ("type", JString "BAJU_NO_4");
              ("size", JString "M"); ("forecasted_demand", JInt 0);
              ("recommended_stock", JInt 2) ] ].

End Sample.

(** ** Vocabulary of the further properties *)

(** A text that does not begin with white space. *)
Definition starts_clean (s : string) : Prop :=
  match s with
  | EmptyString => True
  | String c _ => PyStr.isspace c = false
  end.

(** The indicator that a row sets under a feature name: the name is that
    of its type or of its size. *)
Definition row_feature (feat : string) (r : row) : bool :=
  match uniform_type_gendered r with
  | PStr t => String.eqb feat ("uniform_type_gendered_" ++ t)
  | _ => false
  end
  || match size r with
     | PStr s => String.eqb feat ("size_" ++ s)
     | _ => false
     end.

(** The cell [c] holds the text [v]. *)
Definition is_value (v : string) (c : pyval) : bool :=
  match c with PStr s => String.eqb s v | _ => false end.

(** ** Models that answer with a vector of the wrong length *)

Module Faulty.

(** A model that returns no prediction, and one that returns a single
    prediction whatever the batch. *)
Definition silent : model :=
  {| feature_names_in_ := None; get_feature_names_out := None;
     predict := fun _ => FloatVector [] |}.

Definition short : model :=
  {| feature_names_in_ := None; get_feature_names_out := None;
     predict := fun _ => IntVector [7] |}.

End Faulty.

(** * Properties *)

(** ** binary64 arithmetic *)

Lemma digits2_pos_bound (p : positive) : Zpos p < 2 ^ Zpos (digits2_pos p).
Proof.
  induction p as [p IH | p IH |]; simpl digits2_pos.
  - rewrite Pos2Z.inj_succ, Z.pow_succ_r by lia. lia.
  - rewrite Pos2Z.inj_succ, Z.pow_succ_r by lia. lia.
  - reflexivity.
Qed.

Lemma digits2_pos_lower (p : positive) : 2 ^ (Zpos (digits2_pos p) - 1) <= Zpos p.
Proof.
  induction p as [p IH | p IH |]; simpl digits2_pos.
  - rewrite Pos2Z.inj_succ.
    replace (Z.succ (Zpos (digits2_pos p)) - 1)
      with (Z.succ (Zpos (digits2_pos p) - 1)) by lia.
    rewrite Z.pow_succ_r by lia. lia.
  - rewrite Pos2Z.inj_succ.
    replace (Z.succ (Zpos (digits2_pos p)) - 1)
      with (Z.succ (Zpos (digits2_pos p) - 1)) by lia.
    rewrite Z.pow_succ_r by lia. lia.
  - simpl. lia.
Qed.

Lemma shr_1_m (r : shr_record) : 0 <= shr_m r -> shr_m (shr_1 r) = shr_m r / 2.
Proof.
  destruct r as [m b s]; simpl. intros Hm.
  destruct m as [| p | p]; try lia.
  - reflexivity.
  - destruct p; simpl shr_m.
    + rewrite Pos2Z.inj_xI. apply Z.div_unique with 1; lia.
    + rewrite Pos2Z.inj_xO. apply Z.div_unique with 0; lia.
    + reflexivity.
Qed.

Lemma pow2_xI (p : positive) : 2 ^ Zpos p~1 = 2 * 2 ^ Zpos p * 2 ^ Zpos p.
Proof.
  assert (H : Zpos p~1 = 1 + Zpos p + Zpos p) by lia.
  rewrite H, !Z.pow_add_r by lia. reflexivity.
Qed.

Lemma pow2_xO (p : positive) : 2 ^ Zpos p~0 = 2 ^ Zpos p * 2 ^ Zpos p.
Proof.
  assert (H : Zpos p~0 = Zpos p + Zpos p) by lia.
  rewrite H, Z.pow_add_r by lia. reflexivity.
Qed.

Lemma iter_shr_1_m (p : positive) : forall r, 0 <= shr_m r ->
  shr_m (iter_pos shr_1 p r) = shr_m r / 2 ^ Zpos p.
Proof.
  induction p as [p IH | p IH |]; intros r Hr; simpl iter_pos.
  - assert (Hp : 0 < 2 ^ Zpos p) by (apply Z.pow_pos_nonneg; lia).
    assert (H1 : 0 <= shr_m (shr_1 r))
      by (rewrite shr_1_m by assumption; apply Z.div_pos; lia).
    assert (H2 : 0 <= shr_m (iter_pos shr_1 p (shr_1 r))).
    { rewrite IH by assumption. apply Z.div_pos; assumption. }
    rewrite IH, IH, shr_1_m by assumption.
    rewrite !Z.div_div by lia.
    rewrite pow2_xI. f_equal. ring.
  - assert (Hp : 0 < 2 ^ Zpos p) by (apply Z.pow_pos_nonneg; lia).
    assert (H2 : 0 <= shr_m (iter_pos shr_1 p r)).
    { rewrite IH by assumption. apply Z.div_pos; assumption. }
    rewrite IH, IH by assumption.
    rewrite !Z.div_div by lia.
    rewrite pow2_xO. f_equal.
  - rewrite shr_1_m by assumption. reflexivity.
Qed.

(** After [shr_fexp] a nonnegative mantissa has at most [prec] digits. *)
Lemma shr_fexp_bound (m e : Z) (l : location) :
  0 <= m ->
  0 <= shr_m (fst (shr_fexp 53 1024 m e l)) < 2 ^ 53.
Proof.
  intros Hm. unfold shr_fexp, shr.
  assert (Hrec : shr_m (shr_record_of_loc m l) = m).
  { destruct l as [| []]; reflexivity. }
  assert (Hd : m < 2 ^ Zdigits2 m).
  { destruct m as [| p | p]; simpl; try lia. apply digits2_pos_bound. }
  assert (Hd0 : 0 <= Zdigits2 m).
  { destruct m; simpl; lia. }
  unfold fexp, emin.
  destruct (Z.max (Zdigits2 m + e - 53) (3 - 1024 - 53) - e) as [| n | n] eqn:Hn;
    simpl fst; rewrite ?Hrec.
  - split; [assumption|].
    eapply Z.lt_le_trans; [exact Hd|]. apply Z.pow_le_mono_r; lia.
  - rewrite iter_shr_1_m by (rewrite Hrec; assumption). rewrite Hrec.
    assert (Hp : 0 < 2 ^ Zpos n) by (apply Z.pow_pos_nonneg; lia).
    split; [apply Z.div_pos; assumption|].
    apply Z.div_lt_upper_bound; [assumption|].
    rewrite <- Z.pow_add_r by lia.
    eapply Z.lt_le_trans; [exact Hd|]. apply Z.pow_le_mono_r; lia.
  - split; [assumption|].
    eapply Z.lt_le_trans; [exact Hd|]. apply Z.pow_le_mono_r; lia.
Qed.

Lemma round_nearest_even_nonneg (m : Z) (l : location) :
  0 <= m -> 0 <= round_nearest_even m l.
Proof.
  intros Hm. destruct l as [| []]; simpl; try assumption.
  - destruct (Z.even m); lia.
  - lia.
Qed.

Lemma binary_round_aux_bound (sx : bool) (mx ex : Z) (lx : location) s m e :
  0 <= mx ->
  binary_round_aux 53 1024 sx mx ex lx = S754_finite s m e ->
  Zpos m < 2 ^ 53.
Proof.
  intros Hmx. unfold binary_round_aux.
  destruct (shr_fexp 53 1024 mx ex lx) as [mrs' e'] eqn:H1.
  pose proof (shr_fexp_bound mx ex lx Hmx) as B1. rewrite H1 in B1. simpl in B1.
  set (m1 := round_nearest_even (shr_m mrs') (loc_of_shr_record mrs')).
  assert (Hm1 : 0 <= m1) by (apply round_nearest_even_nonneg; lia).
  destruct (shr_fexp 53 1024 m1 e' loc_Exact) as [mrs'' e''] eqn:H2.
  pose proof (shr_fexp_bound m1 e' loc_Exact Hm1) as B2. rewrite H2 in B2. simpl in B2.
  destruct (shr_m mrs'') as [| p | p] eqn:Hp; try discriminate.
  destruct (e'' <=? 1024 - 53); try discriminate.
  intros H; injection H as _ Hm _. subst p. lia.
Qed.

Lemma mul_mantissa_bound (x y : F64.float) s m e :
  F64.mul x y = S754_finite s m e -> Zpos m < 2 ^ 53.
Proof.
  unfold F64.mul, SFmul.
  destruct x as [sx | sx | | sx mx ex], y as [sy | sy | | sy my ey]; try discriminate.
  apply binary_round_aux_bound. lia.
Qed.

Lemma iter_xO_digits (p k : positive) :
  digits2_pos (Pos.iter xO p k) = (digits2_pos p + k)%positive.
Proof.
  induction k as [| k IH] using Pos.peano_ind.
  - simpl. lia.
  - rewrite Pos.iter_succ. simpl digits2_pos. rewrite IH. lia.
Qed.

Lemma iter_xO_value (p k : positive) :
  Zpos (Pos.iter xO p k) = Zpos p * 2 ^ Zpos k.
Proof.
  induction k as [| k IH] using Pos.peano_ind.
  - simpl. lia.
  - rewrite Pos.iter_succ, Pos2Z.inj_xO, IH, Pos2Z.inj_succ, Z.pow_succ_r by lia. ring.
Qed.

(** A mantissa of exactly [prec] digits within the exponent range is
    left as it is by rounding. *)
Lemma binary_round_aux_canonical (s : bool) (m : positive) (e : Z) :
  Zpos (digits2_pos m) = 53 -> -1074 <= e <= 971 ->
  binary_round_aux 53 1024 s (Zpos m) e loc_Exact = S754_finite s m e.
Proof.
  intros Hd He. unfold binary_round_aux.
  assert (Hs : forall l, l = loc_Exact ->
            shr_fexp 53 1024 (Zpos m) e l = (Build_shr_record (Zpos m) false false, e)).
  { intros l ->. unfold shr_fexp, fexp, emin, shr. simpl Zdigits2. rewrite Hd.
    replace (Z.max (53 + e - 53) (3 - 1024 - 53) - e) with 0 by lia. reflexivity. }
  rewrite (Hs _ eq_refl). simpl round_nearest_even. rewrite (Hs _ eq_refl).
  simpl shr_m. replace (e <=? 1024 - 53) with true by (symmetry; apply Z.leb_le; lia).
  reflexivity.
Qed.

Lemma binary_round_small (s : bool) (p : positive) :
  Zpos p < 2 ^ 53 ->
  exists m e, binary_round 53 1024 s p 0 = S754_finite s m e
              /\ -52 <= e <= 0 /\ Zpos m = Zpos p * 2 ^ (- e).
Proof.
  intros Hp. unfold binary_round.
  pose proof (digits2_pos_lower p) as Hl.
  assert (Hd : Zpos (digits2_pos p) <= 53).
  { destruct (Z.le_gt_cases (Zpos (digits2_pos p)) 53) as [H | H]; [assumption|].
    exfalso. assert (2 ^ 53 <= 2 ^ (Zpos (digits2_pos p) - 1)) by (apply Z.pow_le_mono_r; lia).
    lia. }
  unfold fexp, emin, shl_align.
  replace (Z.max (Zpos (digits2_pos p) + 0 - 53) (3 - 1024 - 53))
    with (Zpos (digits2_pos p) - 53) by lia.
  destruct (Zpos (digits2_pos p) - 53 - 0) as [| k | k] eqn:Hk; try lia.
  - exists p, 0. rewrite binary_round_aux_canonical by lia.
    repeat split; try lia.
  - exists (Pos.iter xO p k), (Zpos (digits2_pos p) - 53).
    rewrite binary_round_aux_canonical.
    + repeat split; try lia.
      rewrite iter_xO_value. f_equal. f_equal. lia.
    + rewrite iter_xO_digits. lia.
    + lia.
Qed.

Lemma trunc_finite_scaled (s : bool) (m : positive) (e z : Z) :
  e <= 0 -> Zpos m = z * 2 ^ (- e) ->
  F64.trunc (S754_finite s m e) = Some (if s then - z else z).
Proof.
  intros He Hm. unfold F64.trunc.
  destruct (0 <=? e) eqn:H0.
  - apply Z.leb_le in H0. assert (e = 0) by lia. subst e.
    assert (Hz : z = Zpos m) by (change (2 ^ (- 0)) with 1 in Hm; lia).
    subst z. change (2 ^ 0) with 1. rewrite Z.mul_1_r. reflexivity.
  - rewrite Hm, Z.div_mul; [reflexivity|].
    apply Z.pow_nonzero; lia.
Qed.

(** Integers below [2^53] in magnitude are floats: conversion and
    truncation give the integer back. *)
Lemma trunc_of_Z (z : Z) :
  Z.abs z < 2 ^ 53 -> F64.trunc (F64.of_Z z) = Some z.
Proof.
  intros Hz. unfold F64.of_Z, F64.prec, F64.emax, binary_normalize.
  destruct z as [| p | p].
  - reflexivity.
  - destruct (binary_round_small false p Hz) as (m & e & -> & He & Hm).
    rewrite (trunc_finite_scaled false m e (Zpos p)); [reflexivity | lia | assumption].
  - destruct (binary_round_small true p Hz) as (m & e & -> & He & Hm).
    rewrite (trunc_finite_scaled true m e (Zpos p)); [reflexivity | lia | assumption].
Qed.

Lemma nearest_even_bounds (n d : Z) :
  0 <= n -> 0 < d -> n / d <= F64.nearest_even n d <= n / d + 1.
Proof.
  intros Hn Hd. unfold F64.nearest_even.
  destruct (2 * (n mod d) ?= d); [destruct (Z.even (n / d))| |]; lia.
Qed.

(** The rounding of a float whose mantissa has at most 53 bits is a
    float, and truncating it gives the rounded integer. *)
Lemma trunc_rint (x : F64.float) :
  (forall s m e, x = S754_finite s m e -> Zpos m < 2 ^ 53) ->
  F64.isfinite x = true ->
  F64.trunc (F64.rint x) = F64.rint_Z x.
Proof.
  intros Hb Hf. destruct x as [s | s | | s m e]; try discriminate.
  - reflexivity.
  - specialize (Hb s m e eq_refl).
    unfold F64.rint. destruct (0 <=? e) eqn:He.
    + unfold F64.trunc, F64.rint_Z. rewrite He. reflexivity.
    + apply Z.leb_gt in He.
      assert (Hpow : 2 <= 2 ^ (- e)).
      { change 2 with (2 ^ 1) at 1. apply Z.pow_le_mono_r; lia. }
      pose proof (nearest_even_bounds (Zpos m) (2 ^ (- e))) as Hne.
      assert (Hq : 0 <= Zpos m / 2 ^ (- e) < 2 ^ 52).
      { split; [apply Z.div_pos; lia|].
        apply Z.div_lt_upper_bound; [lia|].
        change (2 ^ 53) with (2 * 2 ^ 52) in Hb. nia. }
      unfold F64.rint_Z. replace (0 <=? e) with false by (symmetry; apply Z.leb_gt; lia).
      set (a := F64.nearest_even (Zpos m) (2 ^ (- e))) in *.
      assert (Ha : 0 <= a <= 2 ^ 52) by lia.
      change (2 ^ 52) with 4503599627370496 in Ha.
      assert (Hz : Z.abs (if s then - a else a) < 2 ^ 53).
      { change (2 ^ 53) with 9007199254740992. destruct s; lia. }
      destruct (if s then - a else a) as [| p | p] eqn:Hs.
      * reflexivity.
      * apply trunc_of_Z; assumption.
      * apply trunc_of_Z; assumption.
Qed.

(** * Lists and loops *)

Lemma set_nth_app {A : Type} (pre : list A) (x v : A) (post : list A) :
  set_nth (List.length pre) v (pre ++ x :: post) = (pre ++ v :: post)%list.
Proof.
  induction pre as [| y pre IH]; simpl; [reflexivity | now rewrite IH].
Qed.

Lemma set_nth_length {A : Type} (i : nat) (v : A) (l : list A) :
  List.length (set_nth i v l) = List.length l.
Proof.
  revert i; induction l as [| x l IH]; intros [| i]; simpl; auto.
Qed.

(** A loop that overwrites position [idx] of a column with a function of
    the [idx]-th element of a list computes the [map] of that function. *)
Lemma fold_set_nth_map {A B : Type} (f : A -> B) (l : list A) :
  forall (pre init : list B),
    List.length init = List.length l ->
    fold_left (fun acc '(idx, a) => set_nth idx (f a) acc)
      (combine (seq (List.length pre) (List.length l)) l) (pre ++ init)%list
    = (pre ++ map f l)%list.
Proof.
  induction l as [| a l IH]; intros pre init Hlen.
  - destruct init; [reflexivity | discriminate].
  - destruct init as [| b init]; [discriminate|].
    simpl. rewrite set_nth_app.
    specialize (IH (pre ++ [f a])%list init).
    rewrite length_app, Nat.add_1_r in IH. simpl in IH.
    rewrite <- !app_assoc in IH. simpl in IH.
    apply IH. now injection Hlen.
Qed.

Lemma fold_left_pointwise {A B : Type} (f g : A -> B -> A) (l : list B) :
  (forall a b, f a b = g a b) ->
  forall a, fold_left f l a = fold_left g l a.
Proof.
  intros Hfg. induction l as [| b l IH]; intros a; simpl; [reflexivity|].
  now rewrite Hfg, IH.
Qed.

Lemma normalize_sizes_map (utg size : list pyval) :
  List.length utg = List.length size ->
  normalize_sizes utg size
  = map (fun '(t, s) => normalize_row_size t s) (combine utg size).
Proof.
  intros Hlen. unfold normalize_sizes, enumerate.
  pose proof (fold_set_nth_map (fun '(t, s) => normalize_row_size t s)
                (combine utg size) [] size) as H.
  simpl in H. rewrite <- H.
  - apply fold_left_pointwise. intros acc [idx [t s]]. reflexivity.
  - rewrite length_combine. lia.
Qed.

Lemma zip_rows_map (data : list record) (f g h : record -> pyval) :
  zip_rows data (map f data) (map g data) (map h data)
  = map (fun r => {| source := r; uniform_type_gendered := f r;
                     size_normalized := g r; size := h r |}) data.
Proof.
  induction data as [| r data IH]; simpl; [reflexivity | now rewrite IH].
Qed.

Lemma filter_map_comm {A B : Type} (p : B -> bool) (f : A -> B) (l : list A) :
  filter p (map f l) = map f (filter (fun a => p (f a)) l).
Proof.
  induction l as [| a l IH]; simpl; [reflexivity|].
  destruct (p (f a)); simpl; now rewrite IH.
Qed.

Lemma map_combine_map {A B C D : Type} (h : B -> C -> D) (f : A -> B) (g : A -> C)
    (l : list A) :
  map (fun '(b, c) => h b c) (combine (map f l) (map g l))
  = map (fun a => h (f a) (g a)) l.
Proof.
  induction l as [| a l IH]; simpl; [reflexivity | now rewrite IH].
Qed.

(** The frame built by [prepare_features]: the surviving records in
    order, with their normalised size in text form. *)
Lemma prepare_features_rows (data : list record) (df : frame) :
  prepare_features data = Ok df ->
  rows df = map (prepared_row data) (survivors data)
  /\ survivors data <> []
  /\ has_type df = has_column r_type data
  /\ has_uniform_type df = has_column r_uniform_type data
  /\ has_category df = has_column r_category data.
Proof.
  unfold prepare_features.
  set (tc := type_cell data).
  assert (Hutg :
    forall utg,
      (if has_column r_type data then Ok (map (fun r => cell (r_type r)) data)
       else if has_column r_uniform_type data
            then Ok (map (fun r => cell (r_uniform_type r)) data)
            else Raise (ValueError
              "historical_data must contain 'type' or 'uniform_type' column"))
      = Ok utg -> utg = map tc data).
  { intros utg. unfold tc, type_cell.
    destruct (has_column r_type data); [intros H; now injection H as <-|].
    destruct (has_column r_uniform_type data); [intros H; now injection H as <-|].
    discriminate. }
  destruct (if has_column r_type data then _ else _) as [utg | e |] eqn:Hu;
    simpl bind; try discriminate.
  specialize (Hutg utg eq_refl). subst utg.
  destruct (negb (has_column r_size data)); [discriminate|].
  rewrite normalize_sizes_map by now rewrite !length_map.
  rewrite map_combine_map, zip_rows_map, filter_map_comm. simpl size_normalized.
  subst tc.
  change (filter (fun a => notna (normalize_row_size (type_cell data a) (cell (r_size a)))) data)
    with (survivors data).
  destruct (List.length _ =? 0)%nat eqn:Hlen; [discriminate|].
  intros H; injection H as <-. simpl.
  repeat split; try reflexivity.
  - rewrite map_map. reflexivity.
  - intros Hs. rewrite Hs in Hlen. discriminate.
Qed.

(** * Prediction *)

Lemma mapM_Forall2 {A B : Type} (f : A -> result B) (l : list A) :
  forall l', mapM f l = Ok l' -> Forall2 (fun a b => f a = Ok b) l l'.
Proof.
  induction l as [| a l IH]; simpl; intros l' H.
  - injection H as <-. constructor.
  - destruct (f a) as [b | e |] eqn:Hb; simpl in H; try discriminate.
    destruct (mapM f l) as [bs | e |]; simpl in H; try discriminate.
    injection H as <-. constructor; [assumption | now apply IH].
Qed.

Lemma astype_int_trunc (x : F64.float) (z : Z) :
  astype_int x = Ok z -> F64.trunc x = Some z /\ int64_min <= z <= int64_max.
Proof.
  unfold astype_int. destruct (F64.trunc x) as [t |]; [| discriminate].
  destruct ((int64_min <=? t) && (t <=? int64_max)) eqn:Hr; [| discriminate].
  intros H; injection H as <-. apply andb_prop in Hr. destruct Hr as [H1 H2].
  apply Z.leb_le in H1, H2. auto.
Qed.

Lemma trunc_isfinite (x : F64.float) (z : Z) :
  F64.trunc x = Some z -> F64.isfinite x = true.
Proof. destruct x; simpl; intros H; try discriminate; reflexivity. Qed.

Lemma rint_isfinite (x : F64.float) :
  F64.isfinite (F64.rint x) = true -> F64.isfinite x = true.
Proof. destruct x; simpl; auto. Qed.

(** A defined cast of the rounded product is the product rounded to the
    nearest integer, ties to even. *)
Lemma astype_int_buffered (p x : Z) :
  astype_int (buffered p) = Ok x ->
  F64.rint_Z (F64.mul (F64.of_Z p) buffer) = Some x.
Proof.
  intros H. apply astype_int_trunc in H. destruct H as [H _].
  unfold buffered in H. rewrite trunc_rint in H; [assumption | |].
  - intros s m e Hy. eapply mul_mantissa_bound; eassumption.
  - apply rint_isfinite. eapply trunc_isfinite; eassumption.
Qed.

Lemma trunc_nonneg (m : positive) (e : Z) (z : Z) :
  F64.trunc (S754_finite false m e) = Some z -> 0 <= z.
Proof.
  unfold F64.trunc. intros H.
  assert (Hz : z = if 0 <=? e then Zpos m * 2 ^ e else Zpos m / 2 ^ (- e)) by congruence.
  rewrite Hz. destruct (0 <=? e) eqn:He.
  - apply Z.mul_nonneg_nonneg; [lia | apply Z.pow_nonneg; lia].
  - apply Z.leb_gt in He. apply Z.div_pos; [lia | apply Z.pow_pos_nonneg; lia].
Qed.

Lemma astype_int_maximum0 (x : F64.float) (z : Z) :
  astype_int (maximum0 x) = Ok z -> 0 <= z.
Proof.
  intros H. apply astype_int_trunc in H. destruct H as [H _].
  unfold maximum0 in H.
  destruct x as [s | s | | s m e]; simpl in H; try discriminate.
  - destruct s; injection H as <-; lia.
  - destruct s; simpl in H; [injection H as <-; lia | discriminate].
  - destruct s.
    + simpl in H. injection H as <-. lia.
    + eapply trunc_nonneg. exact H.
Qed.

Lemma nonnegative_ints_nonneg (p : prediction) (v : list Z) :
  nonnegative_ints p = Ok v -> Forall (fun z => 0 <= z) v.
Proof.
  destruct p as [l | l | msg]; simpl; intros H.
  - injection H as <-. apply Forall_forall. intros z Hz.
    apply in_map_iff in Hz. destruct Hz as (y & <- & _). lia.
  - apply mapM_Forall2 in H.
    induction H as [| x z l v Hx _ IH]; constructor; [| assumption].
    eapply astype_int_maximum0; eassumption.
  - injection H as <-. constructor.
Qed.


Lemma attach_spec (df : list row) :
  forall demand stock,
    List.length demand = List.length df ->
    Forall (fun z => 0 <= z) demand ->
    Forall2 (fun p x => astype_int (buffered p) = Ok x) demand stock ->
    map base (attach df demand (map (fun x => Z.max x 2) stock)) = df
    /\ map predicted_demand (attach df demand (map (fun x => Z.max x 2) stock)) = demand
    /\ Forall stock_rule (attach df demand (map (fun x => Z.max x 2) stock)).
Proof.
  induction df as [| r df IH]; intros demand stock Hlen Hpos Hst.
  - destruct demand; [| discriminate]. simpl. repeat split; constructor.
  - destruct demand as [| d demand]; [discriminate|].
    inversion Hst as [| d' x dl sl Hx Hrest]; subst.
    inversion Hpos as [| d' dl Hd Hpos']; subst.
    injection Hlen as Hlen.
    destruct (IH demand sl Hlen Hpos' Hrest) as (Hb & Hd' & Hf).
    simpl. rewrite Hb, Hd'. repeat split; try reflexivity.
    constructor; [| assumption].
    split; [exact Hd|]. exists x. split; [| reflexivity].
    now apply astype_int_buffered.
Qed.

Lemma predict_demand_rows (m : model) (df : list row) (res : list predicted_row) :
  predict_demand m df = Ok res ->
  map base res = df /\ Forall stock_rule res.
Proof.
  unfold predict_demand.
  destruct (nonnegative_ints _) as [demand | e |] eqn:Hd; simpl bind; try discriminate.
  destruct (List.length demand =? List.length df)%nat eqn:Hlen; simpl negb; [| discriminate].
  apply Nat.eqb_eq in Hlen.
  destruct (mapM _ demand) as [stock | e |] eqn:Hs; simpl bind; try discriminate.
  intros H; injection H as <-.
  apply nonnegative_ints_nonneg in Hd. apply mapM_Forall2 in Hs.
  destruct (attach_spec df demand stock Hlen Hd Hs) as (Hb & _ & Hf). auto.
Qed.

(** * The program *)


Lemma length_zero_nil {A : Type} (l : list A) :
  (List.length l =? 0)%nat = true <-> l = [].
Proof. destruct l; simpl; split; intros H; try reflexivity; discriminate. Qed.

(** A run on a non-empty batch either prints the recommendations of the
    rows that [predict_demand] returns, or prints an error object and
    exits with status 1. *)
Lemma main_records (path : string) (a : artifact) (data : list record)
    (printed : json) (status : Z) :
  data <> [] ->
  main path a (Records data) = Exit printed status ->
  (exists m df res,
      a = Loaded m /\ prepare_features data = Ok df
      /\ predict_demand m (rows df) = Ok res
      /\ printed = success_output (map (recommendation df) res) /\ status = 0)
  \/ (exists error message, printed = error_output error message /\ status = 1).
Proof.
  intros Hne. unfold main, main_body.
  destruct (List.length data =? 0)%nat eqn:Hl.
  { apply length_zero_nil in Hl. contradiction. }
  destruct a as [| e | m]; simpl load_model; simpl bind.
  - intros H; injection H as <- <-. right. eauto.
  - destruct e; intros H; injection H as <- <-; right; eauto.
  - destruct (prepare_features data) as [df | e |] eqn:Hp; simpl bind.
    + destruct (predict_demand m (rows df)) as [res | e |] eqn:Hr; simpl bind.
      * intros H; injection H as <- <-. left. exists m, df, res. repeat split; auto.
      * destruct e; intros H; injection H as <- <-; right; eauto.
      * discriminate.
    + destruct e; intros H; injection H as <- <-; right; eauto.
    + discriminate.
Qed.

Lemma main_not_records (path : string) (a : artifact) (input : stdin)
    (printed : json) (status : Z) :
  (forall data, input <> Records data) ->
  main path a input = Exit printed status ->
  exists error message, printed = error_output error message /\ status = 1.
Proof.
  intros Hn. destruct input as [msg | | data]; simpl.
  - intros H; injection H as <- <-. eauto.
  - intros H; injection H as <- <-. eauto.
  - exfalso. eapply Hn. reflexivity.
Qed.

Lemma main_empty (path : string) (a : artifact) :
  main path a (Records [])
  = Exit (JObject [("success", JBool true); ("recommendations", JArray [])]) 0.
Proof. reflexivity. Qed.

(** * Alignment to the vocabulary *)

Lemma map_nth_seq {A : Type} (l : list A) (d : A) :
  map (fun r => nth r l d) (seq 0 (List.length l)) = l.
Proof.
  induction l as [| x l IH]; simpl; [reflexivity|].
  rewrite <- seq_shift, map_map. simpl. now rewrite IH.
Qed.

Lemma combine_map_seq {A B : Type} (f : nat -> A) (g : nat -> B) (l : list nat) :
  combine (map f l) (map g l) = map (fun r => (f r, g r)) l.
Proof.
  induction l as [| r l IH]; simpl; [reflexivity | now rewrite IH].
Qed.

(** Writing a column of the right height into a matrix writes one cell
    in every row. *)
Lemma set_column_rows (i n : nat) (values : list bool) (rowf : nat -> list F64.float) :
  List.length values = n ->
  set_column i (map float_of_bool values) (map rowf (seq 0 n))
  = map (fun r => set_nth i (float_of_bool (nth r values false)) (rowf r)) (seq 0 n).
Proof.
  intros Hn. unfold set_column.
  rewrite <- (map_nth_seq values false) at 1. rewrite Hn, map_map.
  rewrite combine_map_seq, map_map. reflexivity.
Qed.


Lemma align_by_rows (X_encoded : list (string * list bool)) (n : nat)
    (steps : list (nat * string)) :
  (forall feat values, column_of X_encoded feat = Some values -> List.length values = n) ->
  forall rowf : nat -> list F64.float,
    fold_left
      (fun X '(i, feat) =>
         match column_of X_encoded feat with
         | Some values => set_column i (map float_of_bool values) X
         | None => X
         end)
      steps (map rowf (seq 0 n))
    = map (fun r => fold_left (align_row X_encoded r) steps (rowf r)) (seq 0 n).
Proof.
  intros Hcols. induction steps as [| [i feat] steps IH]; intros rowf; simpl.
  - reflexivity.
  - destruct (column_of X_encoded feat) as [values |] eqn:Hc.
    + rewrite set_column_rows by (eapply Hcols; eassumption).
      rewrite IH. apply map_ext. intros r. simpl. rewrite ?Hc. reflexivity.
    + rewrite IH. apply map_ext. intros r. simpl. rewrite ?Hc. reflexivity.
Qed.

Lemma align_row_cells (X_encoded : list (string * list bool)) (r : nat)
    (vocabulary : list string) :
  forall pre : list F64.float,
    fold_left (align_row X_encoded r)
      (combine (seq (List.length pre) (List.length vocabulary)) vocabulary)
      (pre ++ repeat F64.zero (List.length vocabulary))%list
    = (pre ++ map (fun feat => aligned_cell X_encoded feat r) vocabulary)%list.
Proof.
  induction vocabulary as [| feat vocabulary IH]; intros pre.
  - reflexivity.
  - simpl.
    assert (Hstep :
      match column_of X_encoded feat with
      | Some values =>
          set_nth (List.length pre) (float_of_bool (nth r values false))
            (pre ++ F64.zero :: repeat F64.zero (List.length vocabulary))%list
      | None => (pre ++ F64.zero :: repeat F64.zero (List.length vocabulary))%list
      end
      = ((pre ++ [aligned_cell X_encoded feat r])
           ++ repeat F64.zero (List.length vocabulary))%list).
    { unfold aligned_cell. destruct (column_of X_encoded feat).
      - rewrite set_nth_app, <- app_assoc. reflexivity.
      - rewrite <- app_assoc. reflexivity. }
    rewrite Hstep.
    specialize (IH (pre ++ [aligned_cell X_encoded feat r])%list).
    rewrite length_app, Nat.add_1_r in IH. simpl in IH.
    rewrite IH, <- app_assoc. reflexivity.
Qed.

Lemma zeros_rows (n k : nat) :
  zeros n k = map (fun _ => repeat F64.zero k) (seq 0 n).
Proof.
  unfold zeros. generalize 0%nat. induction n as [| n IH]; intros s; simpl;
    [reflexivity | now rewrite <- IH].
Qed.

(** The aligned matrix, cell by cell. *)
Lemma align_cells (X_encoded : list (string * list bool)) (n : nat)
    (vocabulary : list string) :
  (forall feat values, column_of X_encoded feat = Some values -> List.length values = n) ->
  align vocabulary X_encoded n
  = map (fun r => map (fun feat => aligned_cell X_encoded feat r) vocabulary) (seq 0 n).
Proof.
  intros Hcols. unfold align, enumerate.
  rewrite zeros_rows, align_by_rows by assumption.
  apply map_ext. intros r.
  exact (align_row_cells X_encoded r vocabulary []).
Qed.

Lemma column_of_In (X_encoded : list (string * list bool)) (feat : string)
    (values : list bool) :
  column_of X_encoded feat = Some values -> exists name, In (name, values) X_encoded.
Proof.
  unfold column_of. destruct (find _ X_encoded) as [[name v] |] eqn:Hf; [| discriminate].
  simpl. intros H; injection H as <-. apply find_some in Hf. exists name. tauto.
Qed.

Lemma dummies_height (prefix : string) (col : list pyval) (name : string)
    (values : list bool) :
  In (name, values) (dummies prefix col) -> List.length values = List.length col.
Proof.
  unfold dummies. intros H. apply in_map_iff in H. destruct H as (v & Hv & _).
  injection Hv as _ <-. apply length_map.
Qed.

Lemma get_dummies_height (df : list row) (feat : string) (values : list bool) :
  column_of (get_dummies df) feat = Some values -> List.length values = List.length df.
Proof.
  intros H. apply column_of_In in H. destruct H as (name & H).
  unfold get_dummies in H. apply in_app_or in H.
  destruct H as [H | H]; apply dummies_height in H; now rewrite length_map in H.
Qed.

Lemma aligned_cell_finite (X_encoded : list (string * list bool)) (feat : string)
    (r : nat) :
  F64.isfinite (aligned_cell X_encoded feat r) = true.
Proof.
  unfold aligned_cell. destruct (column_of X_encoded feat) as [values |]; [| reflexivity].
  destruct (nth r values false); reflexivity.
Qed.

Lemma feature_matrix_aligned (m : model) (df : list row) (vocabulary : list string) :
  expected_features_of m = Some vocabulary ->
  feature_matrix m df
  = map (fun r => map (fun feat => aligned_cell (get_dummies df) feat r) vocabulary)
        (seq 0 (List.length df)).
Proof.
  intros Hv. unfold feature_matrix. rewrite Hv.
  rewrite align_cells by apply get_dummies_height.
  unfold nan_to_num. rewrite map_map. apply map_ext. intros r.
  rewrite map_map. apply map_ext. intros feat.
  now rewrite aligned_cell_finite.
Qed.

(** * Size normalisation *)

Lemma cloth_size_map_synonym (token : string) :
  PyStr.dict_get_default cloth_size_map token token = synonym token.
Proof.
  unfold PyStr.dict_get_default, cloth_size_map. cbn [PyStr.dict_get].
  repeat match goal with
         | |- context [String.eqb ?k token] =>
             destruct (String.eqb_spec k token) as [<- | ?]; [reflexivity|]
         end.
  unfold synonym.
  destruct (String.eqb_spec token "2XL"); [congruence|].
  destruct (String.eqb_spec token "3XL"); [congruence|].
  reflexivity.
Qed.

Lemma isna_cases (v : pyval) :
  isna v = true -> v = PNone \/ v = PFloat S754_nan.
Proof.
  destruct v as [| s | z | x]; simpl; try discriminate; auto.
  destruct x; simpl; try discriminate; auto.
Qed.

Lemma family_of_apparel (t : pyval) :
  family_of t = APPAREL <-> PyStr.contains "BAJU" (PyStr.upper (py_str t)) = true.
Proof.
  unfold family_of. destruct (PyStr.contains "BAJU" _); [tauto|].
  destruct (existsb _ _); split; discriminate.
Qed.

Lemma family_of_measured (t : pyval) :
  family_of t = MEASURED <->
  PyStr.contains "BAJU" (PyStr.upper (py_str t)) = false
  /\ existsb (fun x => PyStr.contains x (PyStr.upper (py_str t))) ["BOOT"; "BERET"] = true.
Proof.
  unfold family_of. destruct (PyStr.contains "BAJU" _).
  - split; [discriminate | intros [H _]; discriminate H].
  - destruct (existsb _ _); split; try tauto; try discriminate.
    intros [_ H]; discriminate H.
Qed.

(** The loop body, by family. *)
Lemma normalize_row_size_by_family (t size : pyval) :
  normalize_row_size t size
  = match family_of t with
    | APPAREL => normalize_cloth_size size
    | MEASURED => match py_float size with Some x => PFloat x | None => PNone end
    | OTHER => PStr (py_str size)
    end.
Proof.
  unfold normalize_row_size, family_of.
  destruct (PyStr.contains "BAJU" _); [reflexivity|].
  destruct (existsb _ _); reflexivity.
Qed.

(** C3 (as amended).  For a record of the apparel family (its type
    contains "BAJU"): a null size is normalised to null; a size given as
    text is never rejected, whatever it holds: it is trimmed, put in
    upper case and passed through the synonym table, which sends 2XL to
    XXL and 3XL to XXXL and leaves every other token, recognised or not,
    as it is.  The empty text is such a token and stays the empty text. *)
Theorem apparel_size_normalization (t size : pyval) :
  family_of t = APPAREL ->
  (isna size = true -> normalize_row_size t size = PNone)
  /\ (forall s, size = PStr s ->
        normalize_row_size t size = PStr (synonym (PyStr.upper (PyStr.strip s)))
        /\ notna (normalize_row_size t size) = true).
Proof.
  intros Hty. rewrite normalize_row_size_by_family, Hty. split.
  - intros Hna. unfold normalize_cloth_size. now rewrite Hna.
  - intros s ->. unfold normalize_cloth_size. simpl.
    rewrite cloth_size_map_synonym. split; reflexivity.
Qed.

Lemma apparel_size_normalization_witness :
  normalize_row_size (PStr "BAJU_NO_3_LELAKI") (PStr "2xl") = PStr "XXL"
  /\ normalize_row_size (PStr "BAJU_NO_3_LELAKI") PNone = PNone.
Proof.
  destruct (apparel_size_normalization (PStr "BAJU_NO_3_LELAKI") (PStr "2xl") eq_refl)
    as [_ Htext].
  destruct (apparel_size_normalization (PStr "BAJU_NO_3_LELAKI") PNone eq_refl)
    as [Hnull _].
  split.
  - exact (proj1 (Htext "2xl" eq_refl)).
  - exact (Hnull eq_refl).
Defined.

(** C3, the claim as stated fails: the empty size of an apparel record
    is not normalised to null; it stays the empty text, is not a null
    cell, and the record survives the filter. *)
Lemma empty_apparel_size_is_kept :
  family_of (PStr "BAJU_NO_4") = APPAREL
  /\ normalize_row_size (PStr "BAJU_NO_4") (cell (Text "")) = PStr ""
  /\ isna (PStr "") = false
  /\ survivors [Sample.item "BAJU_NO_4" (Text "")] = [Sample.item "BAJU_NO_4" (Text "")].
Proof. repeat split. Qed.

(** Text that contains a word contains, in upper case, the word in upper
    case: the test of the code accepts every type that contains "BAJU". *)
Lemma prefix_upper (a b : string) :
  prefix a b = true -> prefix (PyStr.upper a) (PyStr.upper b) = true.
Proof.
  revert a; induction b as [| d b IH]; intros [| c a]; simpl; try reflexivity;
    try discriminate.
  destruct (ascii_dec c d) as [-> | Hn]; [| discriminate].
  destruct (ascii_dec (PyStr.upper_char d) (PyStr.upper_char d)); [| congruence].
  apply IH.
Qed.

Lemma contains_upper (a b : string) :
  PyStr.contains a b = true -> PyStr.contains (PyStr.upper a) (PyStr.upper b) = true.
Proof.
  induction b as [| d b IH]; intros H.
  - change (prefix a "" || false = true) in H.
    apply orb_prop in H. destruct H as [H | H]; [| discriminate].
    change (prefix (PyStr.upper a) (PyStr.upper "") || false = true).
    now rewrite (prefix_upper _ _ H).
  - change (prefix a (String d b) || PyStr.contains a b = true) in H.
    change (prefix (PyStr.upper a) (PyStr.upper (String d b))
            || PyStr.contains (PyStr.upper a) (PyStr.upper b) = true).
    apply orb_prop in H. destruct H as [H | H].
    + now rewrite (prefix_upper _ _ H).
    + rewrite (IH H). apply orb_true_r.
Qed.

Lemma prepare_features_sources (data : list record) (df : frame) :
  prepare_features data = Ok df -> map source (rows df) = survivors data.
Proof.
  intros H. apply prepare_features_rows in H. destruct H as (-> & _).
  rewrite map_map. simpl. apply map_id.
Qed.

(** A type that contains "BAJU" is of the apparel family; a type that
    contains "BOOT" or "BERET" is of the measured family unless the test
    for "BAJU" takes it first. *)
Lemma contains_BAJU_apparel (ty : string) :
  PyStr.contains "BAJU" ty = true -> family_of (PStr ty) = APPAREL.
Proof.
  intros H. apply family_of_apparel. exact (contains_upper "BAJU" ty H).
Qed.

Lemma contains_BOOT_BERET_measured (ty : string) :
  PyStr.contains "BOOT" ty || PyStr.contains "BERET" ty = true ->
  PyStr.contains "BAJU" (PyStr.upper ty) = false ->
  family_of (PStr ty) = MEASURED.
Proof.
  intros H Hb. apply family_of_measured. split; [assumption|].
  cbn [existsb py_str]. apply orb_prop in H. destruct H as [H | H].
  - pose proof (contains_upper "BOOT" ty H) as Hu.
    change (PyStr.upper "BOOT") with "BOOT" in Hu. now rewrite Hu.
  - pose proof (contains_upper "BERET" ty H) as Hu.
    change (PyStr.upper "BERET") with "BERET" in Hu. rewrite Hu.
    now rewrite !orb_true_r.
Qed.

(** C4.  For a record of the measured family (its type contains "BOOT"
    or "BERET" and is not taken by the earlier test for "BAJU"): a size
    that parses as a number is normalised to that float; a size that does
    not parse, a null size and the empty size are normalised to null; and
    a record whose normalised size is null is the source of no row of the
    frame that [prepare_features] returns, every row of which has a
    normalised size that is not null. *)
Theorem measured_size_normalization (t size : pyval) :
  family_of t = MEASURED ->
  (forall x, py_float size = Some x -> normalize_row_size t size = PFloat x)
  /\ (py_float size = None -> normalize_row_size t size = PNone)
  /\ (isna size = true \/ size = PStr "" -> isna (normalize_row_size t size) = true)
  /\ (forall data df r,
        prepare_features data = Ok df ->
        type_cell data r = t -> cell (r_size r) = size ->
        isna (normalize_row_size t size) = true ->
        ~ In r (map source (rows df)))
  /\ (forall data df,
        prepare_features data = Ok df ->
        Forall (fun r => isna (size_normalized r) = false) (rows df)).
Proof.
  intros Hfam.
  assert (Hn : normalize_row_size t size
               = match py_float size with Some x => PFloat x | None => PNone end).
  { now rewrite normalize_row_size_by_family, Hfam. }
  repeat split.
  - intros x Hx. now rewrite Hn, Hx.
  - intros Hx. now rewrite Hn, Hx.
  - intros [Hna | ->]; rewrite Hn.
    + destruct (isna_cases _ Hna) as [-> | ->]; reflexivity.
    + reflexivity.
  - intros data df r Hp Ht Hs Hnull Hin.
    rewrite (prepare_features_sources _ _ Hp) in Hin.
    apply filter_In in Hin. destruct Hin as [_ Hin].
    unfold notna, canonical_size in Hin. rewrite Ht, Hs, Hnull in Hin. discriminate.
  - intros data df Hp. apply prepare_features_rows in Hp. destruct Hp as (-> & _).
    apply Forall_forall. intros r Hr. apply in_map_iff in Hr.
    destruct Hr as (src & <- & Hsrc). apply filter_In in Hsrc. destruct Hsrc as [_ Hs].
    simpl. unfold notna in Hs. now apply negb_true_iff in Hs.
Qed.

Lemma measured_size_normalization_witness :
  normalize_row_size (PStr "BOOT") (PStr "9") = PFloat (F64.of_Z 9)
  /\ normalize_row_size (PStr "BOOT") (PStr "wide") = PNone
  /\ ~ In (Sample.item "BOOT" (Text "wide"))
          (map source
             [prepared_row Sample.batch (Sample.item "BAJU_NO_3_LELAKI" (Text "2xl"));
              prepared_row Sample.batch (Sample.item "BOOT" (Text "9"));
              prepared_row Sample.batch (Sample.item "Belt" Null);
              prepared_row Sample.batch (Sample.item "BAJU_NO_4" (Text " m "))]).
Proof.
  destruct (measured_size_normalization (PStr "BOOT") (PStr "9") eq_refl)
    as (Hnum & _).
  destruct (measured_size_normalization (PStr "BOOT") (PStr "wide") eq_refl)
    as (_ & Hbad & _ & Hdrop & _).
  split; [exact (Hnum (F64.of_Z 9) eq_refl)|].
  split; [exact (Hbad eq_refl)|].
  exact (Hdrop Sample.batch
           {| has_type := true; has_uniform_type := false; has_category := false;
              rows := map (prepared_row Sample.batch) (survivors Sample.batch) |}
           (Sample.item "BOOT" (Text "wide")) eq_refl eq_refl eq_refl eq_refl).
Defined.

(** * The ordinal encoder *)

Lemma leb_lower_finite (lo v : F64.float) :
  F64.leb lo v = true -> F64.isnan v = false.
Proof.
  destruct v; try reflexivity. unfold F64.leb, SFleb, SFcompare.
  destruct lo; discriminate.
Qed.

Lemma between_finite (v : F64.float) :
  F64.leb f4 v = true -> F64.leb v f13 = true ->
  exists t, py_int v = Some t.
Proof.
  intros Hlo Hhi. destruct v as [s | s | | s m e].
  - eexists; reflexivity.
  - destruct s; [discriminate Hlo | discriminate Hhi].
  - discriminate Hlo.
  - eexists; reflexivity.
Qed.

(** C8 (as amended).  A whole number [z] from 4 to 13 other than 7 and 8
    is encoded as [z + 6]; a float [v] with [4 <= v <= 13] that is not in
    [6.5, 8.0] is encoded as [int(v) + 6]; a text that is neither a listed
    token nor readable as a number is encoded as [-1].  The encoder
    returns a code for every value: it raises on none. *)
Theorem encode_size_ranges :
  (forall z, 4 <= z <= 13 -> z <> 7 -> z <> 8 -> encode_size (PInt z) = z + 6)
  /\ (forall v,
        F64.leb f4 v = true -> F64.leb v f13 = true ->
        F64.leb f6_5 v && F64.leb v f8_0 = false ->
        exists t, py_int v = Some t /\ encode_size (PFloat v) = t + 6)
  /\ (forall s,
        PyStr.dict_get encode_size_map s = None -> py_float (PStr s) = None ->
        encode_size (PStr s) = -1).
Proof.
  repeat split.
  - intros z Hz H7 H8.
    assert (Hc : z = 4 \/ z = 5 \/ z = 6 \/ z = 9 \/ z = 10 \/ z = 11 \/ z = 12 \/ z = 13)
      by lia.
    repeat (destruct Hc as [-> | Hc]; [vm_compute; reflexivity|]).
    subst z. vm_compute. reflexivity.
  - intros v Hlo Hhi _.
    destruct (between_finite v Hlo Hhi) as [t Ht]. exists t. split; [assumption|].
    unfold encode_size, encode_size_numeric.
    cbn [isna is_None py_float orb].
    rewrite (leb_lower_finite _ _ Hlo), Hlo, Hhi, Ht. reflexivity.
  - intros s Hd Hf. unfold encode_size, encode_size_numeric.
    cbn [isna is_None orb]. rewrite Hd, Hf.
    destruct (String.eqb s ""); reflexivity.
Qed.

Lemma encode_size_ranges_witness :
  encode_size (PInt 9) = 9 + 6
  /\ (exists t, py_int (F64.of_decimal false 45 (-1)) = Some t
                /\ encode_size (PFloat (F64.of_decimal false 45 (-1))) = t + 6)
  /\ encode_size (PStr "wide") = -1.
Proof.
  destruct encode_size_ranges as (Hint & Hfloat & Htext).
  split; [apply (Hint 9); lia|].
  split; [apply (Hfloat (F64.of_decimal false 45 (-1))); reflexivity|].
  apply (Htext "wide"); reflexivity.
Defined.

(** C8, the claim as stated fails: 7.0 lies in [6.5, 8.0], where the
    claim gives floor(7.0 * 4) + 5 = 33, and the encoder returns 13; 6.5
    lies in both ranges and is encoded as 12, which is neither 6.5 + 6
    nor floor(6.5 * 4) + 5 = 31; and 4.5, in [4, 13] only, is encoded as
    10, which is not 4.5 + 6. *)
Lemma beret_range_never_applies :
  F64.leb f6_5 (F64.of_Z 7) && F64.leb (F64.of_Z 7) f8_0 = true
  /\ py_int (F64.mul (F64.of_Z 7) f4) = Some 28
  /\ encode_size (PFloat (F64.of_Z 7)) = 13
  /\ encode_size (PFloat (F64.of_Z 7)) <> 28 + 5
  /\ F64.leb f6_5 f6_5 && F64.leb f6_5 f8_0 = true
  /\ py_int (F64.mul f6_5 f4) = Some 26
  /\ encode_size (PFloat f6_5) = 12
  /\ encode_size (PFloat f6_5) <> 26 + 5
  /\ F64.leb f4 (F64.of_decimal false 45 (-1))
     && F64.leb (F64.of_decimal false 45 (-1)) f13 = true
  /\ encode_size (PFloat (F64.of_decimal false 45 (-1))) = 10
  /\ F64.of_Z (encode_size (PFloat (F64.of_decimal false 45 (-1))))
     <> F64.add (F64.of_decimal false 45 (-1)) (F64.of_Z 6).
Proof. vm_compute. repeat split; discriminate. Qed.

(** * Runs of the program *)

(** C2.  On the empty array the script prints an object with the members
    [success] and [recommendations] only, and exits with status 0; the
    object has no [count] member. *)
Theorem empty_batch_output (path : string) (a : artifact) :
  main path a (Records [])
  = Exit (JObject [("success", JBool true); ("recommendations", JArray [])]) 0
  /\ json_get "count"
       (JObject [("success", JBool true); ("recommendations", JArray [])]) = None
  /\ JObject [("success", JBool true); ("recommendations", JArray [])]
     <> success_output [].
Proof. repeat split. discriminate. Qed.

Lemma prepare_features_no_survivor (data : list record) :
  survivors data = [] -> exists msg, prepare_features data = Raise (ValueError msg).
Proof.
  intros Hs. destruct (prepare_features data) as [df | e |] eqn:Hp.
  - apply prepare_features_rows in Hp. destruct Hp as (_ & Hne & _). contradiction.
  - revert Hp. unfold prepare_features.
    destruct (has_column r_type data); simpl bind.
    + destruct (negb (has_column r_size data)); [intros H; injection H as <-; eauto|].
      destruct (List.length _ =? 0)%nat; [intros H; injection H as <-; eauto | discriminate].
    + destruct (has_column r_uniform_type data); simpl bind.
      * destruct (negb (has_column r_size data)); [intros H; injection H as <-; eauto|].
        destruct (List.length _ =? 0)%nat; [intros H; injection H as <-; eauto | discriminate].
      * intros H; injection H as <-; eauto.
  - revert Hp. unfold prepare_features.
    destruct (has_column r_type data); simpl bind.
    + destruct (negb (has_column r_size data)); [discriminate|].
      destruct (List.length _ =? 0)%nat; discriminate.
    + destruct (has_column r_uniform_type data); simpl bind.
      * destruct (negb (has_column r_size data)); [discriminate|].
        destruct (List.length _ =? 0)%nat; discriminate.
      * discriminate.
Qed.

(** C9.  When the batch is not empty and no record has a normalised size
    that is not null, the script prints the error object, with the
    members [success] (false), [error] and [message], and exits with
    status 1, whatever the model file is; when the model is loaded, the
    error is the [ValueError] that [prepare_features] raises. *)
Theorem empty_after_filtering_fails (path : string) (a : artifact)
    (data : list record) :
  data <> [] -> survivors data = [] ->
  exists error message,
    main path a (Records data) = Exit (error_output error message) 1
    /\ json_get "success" (error_output error message) = Some (JBool false)
    /\ (forall m, a = Loaded m ->
          prepare_features data = Raise (ValueError error)
          /\ message = "Prediction error: " ++ error).
Proof.
  intros Hne Hs. unfold main, main_body.
  destruct (List.length data =? 0)%nat eqn:Hl.
  { apply length_zero_nil in Hl. contradiction. }
  destruct a as [| e | m]; simpl load_model; simpl bind.
  - do 2 eexists. split; [reflexivity | split; [reflexivity|]].
    intros m Hm. discriminate Hm.
  - destruct e; do 2 eexists; (split; [reflexivity | split; [reflexivity|]]);
      intros m Hm; discriminate Hm.
  - destruct (prepare_features_no_survivor data Hs) as [msg Hp]. rewrite Hp.
    simpl bind. exists msg, ("Prediction error: " ++ msg).
    split; [reflexivity | split; [reflexivity|]]. intros m' _. split; reflexivity.
Qed.

Lemma empty_after_filtering_fails_witness :
  exists error message,
    main Sample.path (Loaded Sample.scorer)
      (Records [Sample.item "BOOT" (Text "wide"); Sample.item "BERET" Null])
    = Exit (error_output error message) 1
    /\ json_get "success" (error_output error message) = Some (JBool false)
    /\ (forall m, Loaded Sample.scorer = Loaded m ->
          prepare_features [Sample.item "BOOT" (Text "wide"); Sample.item "BERET" Null]
          = Raise (ValueError error)
          /\ message = "Prediction error: " ++ error).
Proof.
  apply (empty_after_filtering_fails Sample.path (Loaded Sample.scorer)
           [Sample.item "BOOT" (Text "wide"); Sample.item "BERET" Null]).
  - discriminate.
  - reflexivity.
Defined.

(** The recommendations of a run, when it prints any: none for the empty
    batch, otherwise one per row returned by [predict_demand]. *)
Lemma main_recommendations (path : string) (a : artifact) (input : stdin)
    (printed : json) (status : Z) (recs : list json) :
  main path a input = Exit printed status ->
  json_get "recommendations" printed = Some (JArray recs) ->
  (input = Records [] /\ recs = [])
  \/ (exists data m df res,
        input = Records data /\ data <> [] /\ a = Loaded m
        /\ prepare_features data = Ok df
        /\ predict_demand m (rows df) = Ok res
        /\ printed = success_output recs
        /\ recs = map (recommendation df) res).
Proof.
  intros Hrun Hrecs. destruct input as [msg | | data].
  - destruct (main_not_records path a (Malformed msg) printed status)
      as (e & msg' & -> & _); [discriminate | assumption | discriminate Hrecs].
  - destruct (main_not_records path a NotAList printed status)
      as (e & msg' & -> & _); [discriminate | assumption | discriminate Hrecs].
  - destruct data as [| r0 data].
    + rewrite main_empty in Hrun. injection Hrun as <- _.
      injection Hrecs as <-. left. auto.
    + destruct (main_records path a (r0 :: data) printed status) as
        [(m & df & res & Ha & Hp & Hr & -> & _) | (e & msg' & -> & _)];
        [discriminate | assumption | | discriminate Hrecs].
      injection Hrecs as <-. right. exists (r0 :: data), m, df, res.
      repeat split; auto. discriminate.
Qed.



Lemma recommendation_entry (data : list record) (df : frame) (r : predicted_row)
    (src : record) :
  has_type df = has_column r_type data ->
  has_uniform_type df = has_column r_uniform_type data ->
  has_category df = has_column r_category data ->
  base r = prepared_row data src ->
  entry_of data (recommendation df r) src.
Proof.
  intros Ht Hu Hc Hb. unfold entry_of, recommendation, category_text, type_text.
  rewrite Ht, Hu, Hc, Hb. simpl. repeat split.
Qed.

Lemma recommendations_entries (data : list record) (df : frame)
    (res : list predicted_row) :
  prepare_features data = Ok df ->
  map base res = rows df ->
  Forall2 (entry_of data) (map (recommendation df) res) (survivors data).
Proof.
  intros Hp Hb. apply prepare_features_rows in Hp.
  destruct Hp as (Hrows & _ & Ht & Hu & Hc). rewrite Hrows in Hb. clear Hrows.
  revert res Hb. induction (survivors data) as [| src srv IH]; intros res Hb.
  - destruct res; [constructor | discriminate].
  - destruct res as [| r res]; [discriminate|]. simpl in Hb.
    injection Hb as Hr Hb. simpl. constructor; [| now apply IH].
    now apply recommendation_entry.
Qed.

(** C5.  A run on a non-empty batch that reports success prints one
    recommendation for each record whose normalised size is not null, in
    the order of the batch, each with the category, type and size text of
    its record; [count] is the length of that list. *)
Theorem one_recommendation_per_survivor (path : string) (a : artifact)
    (data : list record) (printed : json) (status : Z) :
  data <> [] ->
  main path a (Records data) = Exit printed status ->
  json_get "success" printed = Some (JBool true) ->
  exists recs,
    json_get "recommendations" printed = Some (JArray recs)
    /\ json_get "count" printed = Some (JInt (Z.of_nat (List.length recs)))
    /\ Forall2 (entry_of data) recs (survivors data)
    /\ List.length recs = List.length (survivors data).
Proof.
  intros Hne Hrun Hok.
  destruct (main_records path a data printed status Hne Hrun) as
    [(m & df & res & _ & Hp & Hr & -> & _) | (e & msg & -> & _)];
    [| discriminate Hok].
  exists (map (recommendation df) res).
  apply predict_demand_rows in Hr. destruct Hr as [Hb _].
  pose proof (recommendations_entries data df res Hp Hb) as Hall.
  repeat split; try assumption.
  eapply Forall2_length; eassumption.
Qed.

Lemma one_recommendation_per_survivor_witness :
  exists recs,
    json_get "recommendations" (success_output Sample.recommendations) = Some (JArray recs)
    /\ json_get "count" (success_output Sample.recommendations)
       = Some (JInt (Z.of_nat (List.length recs)))
    /\ Forall2 (entry_of Sample.batch) recs (survivors Sample.batch)
    /\ List.length recs = List.length (survivors Sample.batch).
Proof.
  apply (one_recommendation_per_survivor Sample.path (Loaded Sample.scorer)
           Sample.batch (success_output Sample.recommendations) 0).
  - discriminate.
  - vm_compute. reflexivity.
  - reflexivity.
Defined.



(** * The fallback *)

Lemma mapM_buffered_twos (n : nat) :
  mapM (fun p => astype_int (buffered p)) (repeat 2 n) = Ok (repeat 2 n).
Proof.
  induction n as [| n IH]; [reflexivity|].
  change (repeat 2 (S n)) with (2 :: repeat 2 n).
  cbn [mapM]. rewrite IH.
  replace (astype_int (buffered 2)) with (@Ok Z 2) by (vm_compute; reflexivity).
  reflexivity.
Qed.

Lemma attach_twos (df : list row) :
  attach df (repeat 2 (List.length df))
    (map (fun x => Z.max x 2) (repeat 2 (List.length df)))
  = map fallback_row df.
Proof.
  induction df as [| r df IH]; [reflexivity|].
  simpl. simpl in IH. rewrite IH. reflexivity.
Qed.

Lemma predict_demand_fallback (m : model) (df : list row) (msg : string) :
  predict m (feature_matrix m df) = PredictRaises msg ->
  predict_demand m df = Ok (map fallback_row df).
Proof.
  intros Hraise. unfold predict_demand, predictions_or_fallback. rewrite Hraise.
  cbn [nonnegative_ints bind].
  rewrite map_repeat. change (Z.max 2 0) with 2.
  rewrite repeat_length, Nat.eqb_refl. cbn [negb].
  rewrite mapM_buffered_twos. cbn [bind].
  now rewrite attach_twos.
Qed.

(** C7.  When [model.predict] raises on the matrix of the batch, the run
    still reports success with exit status 0: it prints one
    recommendation per surviving record, and each has
    [forecasted_demand] 2 and [recommended_stock] 2. *)
Theorem predict_failure_falls_back (path : string) (m : model)
    (data : list record) (df : frame) (msg : string) :
  prepare_features data = Ok df ->
  predict m (feature_matrix m (rows df)) = PredictRaises msg ->
  exists recs,
    main path (Loaded m) (Records data) = Exit (success_output recs) 0
    /\ Forall2 (entry_of data) recs (survivors data)
    /\ Forall (fun rec =>
                 json_get "forecasted_demand" rec = Some (JInt 2)
                 /\ json_get "recommended_stock" rec = Some (JInt 2)) recs.
Proof.
  intros Hp Hraise.
  pose proof (predict_demand_fallback m (rows df) msg Hraise) as Hres.
  exists (map (recommendation df) (map fallback_row (rows df))).
  split; [| split].
  - unfold main, main_body.
    destruct (List.length data =? 0)%nat eqn:Hl.
    { apply length_zero_nil in Hl. subst data. discriminate Hp. }
    cbn [load_model bind]. rewrite Hp. cbn [bind]. rewrite Hres. reflexivity.
  - apply recommendations_entries; [assumption|].
    rewrite map_map. apply map_id.
  - apply Forall_forall. intros rec Hin.
    apply in_map_iff in Hin. destruct Hin as (r & <- & Hr).
    apply in_map_iff in Hr. destruct Hr as (r0 & <- & _).
    split; reflexivity.
Qed.

Lemma predict_failure_falls_back_witness :
  exists recs,
    main Sample.path (Loaded Sample.broken) (Records Sample.batch)
    = Exit (success_output recs) 0
    /\ Forall2 (entry_of Sample.batch) recs (survivors Sample.batch)
    /\ Forall (fun rec =>
                 json_get "forecasted_demand" rec = Some (JInt 2)
                 /\ json_get "recommended_stock" rec = Some (JInt 2)) recs.
Proof.
  apply (predict_failure_falls_back Sample.path Sample.broken Sample.batch
           {| has_type := true; has_uniform_type := false; has_category := false;
              rows := map (prepared_row Sample.batch) (survivors Sample.batch) |}
           "X has 8 features, but the estimator expects 41").
  - vm_compute. reflexivity.
  - reflexivity.
Defined.

(** * The feature matrix *)




(** * Runs whose casts are defined *)

Lemma Zdigits2_le (m D : Z) : 0 < m -> m < 2 ^ D -> 0 <= D -> Zdigits2 m <= D.
Proof.
  intros Hm HD H0. destruct m as [| p | p]; try lia. simpl.
  pose proof (digits2_pos_lower p) as Hl.
  destruct (Z.le_gt_cases (Zpos (digits2_pos p)) D) as [H | H]; [assumption|].
  exfalso. assert (2 ^ D <= 2 ^ (Zpos (digits2_pos p) - 1)) by (apply Z.pow_le_mono_r; lia).
  lia.
Qed.

(** What [shr_fexp] does to a nonnegative mantissa: the exponent is
    raised to the one the format asks for and the mantissa is divided
    accordingly. *)
Lemma shr_fexp_spec (m e : Z) (l : location) :
  0 <= m ->
  let e' := Z.max e (fexp 53 1024 (Zdigits2 m + e)) in
  snd (shr_fexp 53 1024 m e l) = e'
  /\ shr_m (fst (shr_fexp 53 1024 m e l)) = m / 2 ^ (e' - e).
Proof.
  intros Hm e'. unfold shr_fexp, shr.
  assert (Hrec : shr_m (shr_record_of_loc m l) = m).
  { destruct l as [| []]; reflexivity. }
  destruct (fexp 53 1024 (Zdigits2 m + e) - e) as [| n | n] eqn:Hn; simpl fst; simpl snd.
  - subst e'. replace (Z.max e (fexp 53 1024 (Zdigits2 m + e)) - e) with 0 by lia.
    rewrite Hrec, Z.div_1_r. split; lia.
  - subst e'. replace (Z.max e (fexp 53 1024 (Zdigits2 m + e)) - e) with (Zpos n) by lia.
    rewrite iter_shr_1_m by (rewrite Hrec; assumption). rewrite Hrec. split; lia.
  - subst e'. replace (Z.max e (fexp 53 1024 (Zdigits2 m + e)) - e) with 0 by lia.
    rewrite Hrec, Z.div_1_r. split; lia.
Qed.

Lemma round_nearest_even_bounds (m : Z) (l : location) :
  m <= round_nearest_even m l <= m + 1.
Proof.
  destruct l as [| []]; simpl; try lia. destruct (Z.even m); lia.
Qed.

(** Rounding an exact positive value [M * 2^E] gives a float whose
    integer part is at most twice that value. *)
Lemma binary_round_aux_trunc (s : bool) (M : positive) (E : Z) :
  -1000 <= E <= 0 -> Zpos M < 2 ^ 900 ->
  exists z,
    F64.trunc (binary_round_aux 53 1024 s (Zpos M) E loc_Exact) = Some z
    /\ Z.abs z <= (2 * Zpos M) / 2 ^ (- E).
Proof.
  intros HE HM. unfold binary_round_aux.
  assert (HC : 0 < 2 ^ (- E)) by (apply Z.pow_pos_nonneg; lia).
  assert (Hnonneg : 0 <= (2 * Zpos M) / 2 ^ (- E)) by (apply Z.div_pos; lia).
  destruct (shr_fexp_spec (Zpos M) E loc_Exact) as [He1 Hm1]; [lia|].
  pose proof (shr_fexp_bound (Zpos M) E loc_Exact) as Hb1.
  destruct (shr_fexp 53 1024 (Zpos M) E loc_Exact) as [mrs' e1].
  simpl fst in *; simpl snd in *. rewrite <- He1 in Hm1.
  set (m1 := shr_m mrs') in *.
  assert (Hb1' : 0 <= m1 < 2 ^ 53) by (apply Hb1; lia). clear Hb1.
  pose proof (round_nearest_even_bounds m1 (loc_of_shr_record mrs')) as Hr.
  set (m1' := round_nearest_even m1 (loc_of_shr_record mrs')) in *.
  destruct (shr_fexp_spec m1' e1 loc_Exact) as [He2 Hm2]; [lia|].
  destruct (shr_fexp 53 1024 m1' e1 loc_Exact) as [mrs'' e2].
  simpl fst in *; simpl snd in *. rewrite <- He2 in Hm2.
  (* the first shift *)
  set (d := Zdigits2 (Zpos M)) in *.
  assert (Hd : 1 <= d <= 900).
  { split; [subst d; simpl; lia|]. apply Zdigits2_le; lia. }
  assert (Hd' : 2 ^ (d - 1) <= Zpos M) by (subst d; apply digits2_pos_lower).
  set (n1 := e1 - E) in *.
  assert (Hn1 : 0 <= n1 /\ 2 ^ n1 <= Zpos M /\ e1 <= 847).
  { subst n1. unfold fexp, emin in He1.
    destruct (Z.max_spec E (Z.max (d + E - 53) (3 - 1024 - 53))) as [[Hc Hmx] | [Hc Hmx]];
      rewrite Hmx in He1.
    - replace (e1 - E) with (d - 53) by lia. repeat split; try lia.
      eapply Z.le_trans; [| exact Hd']. apply Z.pow_le_mono_r; lia.
    - replace (e1 - E) with 0 by lia. simpl. lia. }
  destruct Hn1 as (Hn1 & Hn1M & He1b).
  (* the second shift *)
  assert (Hd1 : Zdigits2 m1' <= 54).
  { destruct (Z.eq_dec m1' 0) as [-> | Hnz]; [simpl; lia|].
    apply Zdigits2_le; lia. }
  assert (Hd1' : 0 <= Zdigits2 m1') by (destruct m1'; simpl; lia).
  set (n2 := e2 - e1) in *.
  assert (Hn2 : 0 <= n2 /\ e2 <= 848).
  { subst n2. unfold fexp, emin in He2. lia. }
  destruct Hn2 as (Hn2 & He2b).
  assert (HA : 0 < 2 ^ n1) by (apply Z.pow_pos_nonneg; lia).
  assert (HB : 0 < 2 ^ n2) by (apply Z.pow_pos_nonneg; lia).
  (* the value *)
  assert (Hval : shr_m mrs'' * 2 ^ n2 * 2 ^ n1 <= 2 * Zpos M).
  { rewrite Hm2.
    assert (m1' / 2 ^ n2 * 2 ^ n2 <= m1').
    { rewrite Z.mul_comm. apply Z.mul_div_le. assumption. }
    assert (m1 * 2 ^ n1 <= Zpos M).
    { rewrite Hm1, Z.mul_comm. apply Z.mul_div_le. assumption. }
    nia. }
  assert (Hm2pos : 0 <= shr_m mrs'').
  { rewrite Hm2. apply Z.div_pos; lia. }
  destruct (shr_m mrs'') as [| m | m] eqn:Hm'; try lia.
  - exists 0. split; [reflexivity | simpl; lia].
  - replace (e2 <=? 1024 - 53) with true by (symmetry; apply Z.leb_le; lia).
    unfold F64.trunc.
    assert (Hpow : 2 ^ (e2 - E) = 2 ^ n2 * 2 ^ n1).
    { subst n1 n2. rewrite <- Z.pow_add_r by lia. f_equal. lia. }
    destruct (0 <=? e2) eqn:Hs.
    + apply Z.leb_le in Hs. eexists; split; [reflexivity|].
      assert (Ha : Zpos m * 2 ^ e2 <= (2 * Zpos M) / 2 ^ (- E)).
      { apply Z.div_le_lower_bound; [assumption|].
        rewrite Z.mul_comm, <- Z.mul_assoc, <- Z.pow_add_r by lia.
        replace (e2 + - E) with (e2 - E) by lia. rewrite Hpow. lia. }
      assert (0 <= Zpos m * 2 ^ e2) by (apply Z.mul_nonneg_nonneg; [lia | apply Z.pow_nonneg; lia]).
      destruct s; lia.
    + apply Z.leb_gt in Hs. eexists; split; [reflexivity|].
      assert (HD : 0 < 2 ^ (- e2)) by (apply Z.pow_pos_nonneg; lia).
      assert (Hq : Zpos m / 2 ^ (- e2) * 2 ^ (- e2) <= Zpos m).
      { rewrite Z.mul_comm. apply Z.mul_div_le. assumption. }
      assert (Hq0 : 0 <= Zpos m / 2 ^ (- e2)) by (apply Z.div_pos; lia).
      assert (Hsplit : 2 ^ (- E) = 2 ^ (- e2) * 2 ^ (e2 - E)).
      { rewrite <- Z.pow_add_r by lia. f_equal. lia. }
      assert (Ha : Zpos m / 2 ^ (- e2) <= (2 * Zpos M) / 2 ^ (- E)).
      { apply Z.div_le_lower_bound; [assumption|].
        rewrite Hsplit, Hpow.
        assert (0 < 2 ^ n2 * 2 ^ n1) by lia. nia. }
      destruct s; lia.
Qed.

Lemma buffer_value : buffer = S754_finite false 5179139571476070 (-52).
Proof. vm_compute. reflexivity. Qed.

Lemma rint_Z_near_trunc (x : F64.float) (z : Z) :
  F64.trunc x = Some z ->
  exists k, F64.rint_Z x = Some k /\ Z.abs k <= Z.abs z + 1.
Proof.
  destruct x as [s | s | | s m e]; try discriminate.
  - intros H. exists 0. split; [reflexivity | lia].
  - unfold F64.trunc, F64.rint_Z. intros H.
    destruct (0 <=? e) eqn:He.
    + eexists; split; [reflexivity|].
      assert (Hz : z = if s then - (Zpos m * 2 ^ e) else Zpos m * 2 ^ e) by congruence.
      rewrite Hz. lia.
    + apply Z.leb_gt in He.
      assert (Hp : 0 < 2 ^ (- e)) by (apply Z.pow_pos_nonneg; lia).
      pose proof (nearest_even_bounds (Zpos m) (2 ^ (- e)) ltac:(lia) Hp) as Hb.
      assert (H0 : 0 <= Zpos m / 2 ^ (- e)) by (apply Z.div_pos; lia).
      eexists; split; [reflexivity|].
      assert (Hz : z = if s then - (Zpos m / 2 ^ (- e)) else Zpos m / 2 ^ (- e))
        by congruence.
      rewrite Hz. destruct s; lia.
Qed.

(** The stock of a demand below [2^53] is defined. *)
Lemma buffered_defined (p : Z) :
  0 <= p < 2 ^ 53 -> exists x, astype_int (buffered p) = Ok x.
Proof.
  intros Hp. destruct p as [| q | q]; try lia.
  - exists 0. vm_compute. reflexivity.
  - assert (Htr : exists z, F64.trunc (F64.mul (F64.of_Z (Zpos q)) buffer) = Some z
                            /\ Z.abs z <= 2 ^ 55).
    { unfold F64.of_Z, F64.prec, F64.emax, binary_normalize.
      destruct (binary_round_small false q) as (mp & ep & -> & Hep & Hmp); [lia|].
      rewrite buffer_value. unfold F64.mul, F64.prec, F64.emax, SFmul.
      cbn [xorb].
      assert (Hpow : 0 < 2 ^ (- ep) <= 2 ^ 52).
      { split; [apply Z.pow_pos_nonneg; lia | apply Z.pow_le_mono_r; lia]. }
      destruct (binary_round_aux_trunc false (mp * 5179139571476070) (ep + -52))
        as (z & Hz & Hzb).
      - lia.
      - rewrite Pos2Z.inj_mul, Hmp.
        change (2 ^ 900) with (2 ^ 53 * 2 ^ 52 * 2 ^ 795).
        change (2 ^ 52) with 4503599627370496 in *.
        change (2 ^ 53) with 9007199254740992 in *.
        assert (1 <= 2 ^ 795) by (apply Z.lt_le_incl; reflexivity || (apply Z.pow_pos_nonneg; lia)).
        nia.
      - exists z. split; [exact Hz|].
        eapply Z.le_trans; [exact Hzb|].
        apply Z.div_le_upper_bound; [apply Z.pow_pos_nonneg; lia|].
        rewrite Pos2Z.inj_mul, Hmp.
        replace (- (ep + -52)) with (- ep + 52) by lia.
        rewrite Z.pow_add_r by lia.
        change (2 ^ 52) with 4503599627370496 in *.
        change (2 ^ 53) with 9007199254740992 in *.
        change (2 ^ 55) with 36028797018963968.
        nia. }
    destruct Htr as (z & Hz & Hzb).
    destruct (rint_Z_near_trunc _ _ Hz) as (k & Hk & Hkb).
    exists k. unfold astype_int, buffered.
    rewrite trunc_rint, Hk.
    + change (2 ^ 55) with 36028797018963968 in Hzb.
      replace ((int64_min <=? k) && (k <=? int64_max)) with true; [reflexivity|].
      symmetry. apply andb_true_intro. unfold int64_min, int64_max.
      change (2 ^ 63) with 9223372036854775808.
      split; [apply Z.leb_le | apply Z.leb_le]; lia.
    + intros s m e Hy. eapply mul_mantissa_bound; eassumption.
    + eapply trunc_isfinite; eassumption.
Qed.

Lemma mapM_defined {A B : Type} (P : A -> Prop) (Q : B -> Prop) (f : A -> result B)
    (l : list A) :
  (forall a, P a -> exists b, f a = Ok b /\ Q b) ->
  Forall P l -> exists l', mapM f l = Ok l' /\ Forall Q l'.
Proof.
  intros Hf Hl. induction Hl as [| a l Ha _ IH].
  - exists []. split; [reflexivity | constructor].
  - destruct (Hf a Ha) as (b & Hb & Hq). destruct IH as (l' & Hl' & Hq').
    exists (b :: l'). simpl. rewrite Hb, Hl'. split; [reflexivity | now constructor].
Qed.

Lemma astype_int_maximum0_defined (x : F64.float) (z : Z) :
  F64.trunc x = Some z -> z < 2 ^ 53 ->
  exists z', astype_int (maximum0 x) = Ok z' /\ 0 <= z' < 2 ^ 53.
Proof.
  intros Hz Hb.
  assert (Hcase : maximum0 x = F64.zero \/ (maximum0 x = x /\ 0 <= z)).
  { unfold maximum0. destruct x as [s | s | | s m e]; try discriminate.
    - right. split; [reflexivity|]. simpl in Hz. injection Hz as <-. lia.
    - destruct s.
      + left. reflexivity.
      + right. split; [reflexivity|]. eapply trunc_nonneg; eassumption. }
  destruct Hcase as [-> | [-> Hz0]].
  - exists 0. split; [reflexivity|]. change (2 ^ 53) with 9007199254740992. lia.
  - exists z. unfold astype_int. rewrite Hz.
    replace ((int64_min <=? z) && (z <=? int64_max)) with true; [split; [reflexivity | lia]|].
    symmetry. apply andb_true_intro. unfold int64_min, int64_max.
    change (2 ^ 63) with 9223372036854775808.
    change (2 ^ 53) with 9007199254740992 in Hb.
    split; apply Z.leb_le; lia.
Qed.

Lemma nonnegative_ints_defined (p : prediction) :
  sane_prediction p ->
  exists v, nonnegative_ints p = Ok v /\ Forall (fun z => 0 <= z < 2 ^ 53) v.
Proof.
  destruct p as [v | v | msg]; simpl; intros Hs.
  - eexists; split; [reflexivity|].
    apply Forall_forall. intros z Hz. apply in_map_iff in Hz.
    destruct Hz as (y & <- & Hy). rewrite Forall_forall in Hs. specialize (Hs y Hy).
    change (2 ^ 53) with 9007199254740992 in *. lia.
  - apply (mapM_defined _ (fun z => 0 <= z < 2 ^ 53)
             (fun x => astype_int (maximum0 x)) v) in Hs; [assumption|].
    intros x (z & Hz & Hb). eapply astype_int_maximum0_defined; eassumption.
  - exists []. split; [reflexivity | constructor].
Qed.

Lemma predictions_or_fallback_sane (m : model) (X : matrix) (n : nat) :
  sane_prediction (predict m X) -> sane_prediction (predictions_or_fallback m X n).
Proof.
  intros Hs. unfold predictions_or_fallback.
  assert (Htwos : sane_prediction (IntVector (repeat 2 n))).
  { simpl. apply Forall_forall. intros z Hz. apply repeat_spec in Hz. subst z.
    reflexivity. }
  destruct (predict m X) as [v | v | msg]; [| | exact Htwos].
  - destruct v; [exact Htwos | exact Hs].
  - destruct v; [exact Htwos | exact Hs].
Qed.

(** With such predictions [predict_demand] returns rows or raises; no
    cast is left without a value. *)
Lemma predict_demand_defined (m : model) (df : list row) :
  sane_prediction (predict m (feature_matrix m df)) ->
  predict_demand m df <> Undefined.
Proof.
  intros Hs. unfold predict_demand.
  apply (predictions_or_fallback_sane m _ (List.length df)) in Hs.
  destruct (nonnegative_ints_defined _ Hs) as (v & -> & Hv). cbn [bind].
  destruct (negb (List.length v =? List.length df)%nat); [discriminate|].
  apply (mapM_defined _ (fun _ => True) (fun p => astype_int (buffered p)) v) in Hv.
  - destruct Hv as (stock & -> & _). discriminate.
  - intros p Hp. destruct (buffered_defined p Hp) as (x & Hx). eauto.
Qed.

Lemma prepare_features_defined (data : list record) :
  prepare_features data <> Undefined.
Proof.
  unfold prepare_features.
  destruct (has_column r_type data); simpl bind.
  - destruct (negb (has_column r_size data)); [discriminate|].
    destruct (List.length _ =? 0)%nat; discriminate.
  - destruct (has_column r_uniform_type data); simpl bind; [| discriminate].
    destruct (negb (has_column r_size data)); [discriminate|].
    destruct (List.length _ =? 0)%nat; discriminate.
Qed.

(** Every run with a model whose predictions are integers or finite
    floats below [2^53] prints an object and exits: the behaviour of the
    script is defined on all such runs. *)
Theorem run_is_defined (path : string) (a : artifact) (input : stdin) :
  (forall m df, a = Loaded m -> sane_prediction (predict m (feature_matrix m df))) ->
  exists printed status, main path a input = Exit printed status.
Proof.
  intros Hs. unfold main.
  destruct (main_body path a input) as [out | e |] eqn:Hb.
  - eauto.
  - destruct e; eauto.
  - exfalso. revert Hb. unfold main_body.
    destruct input as [msg | | data]; try discriminate.
    destruct (List.length data =? 0)%nat; [discriminate|].
    destruct a as [| e | m]; simpl load_model; simpl bind; try discriminate.
    pose proof (prepare_features_defined data) as Hp.
    destruct (prepare_features data) as [df | e |]; simpl bind;
      [| discriminate | contradiction].
    pose proof (predict_demand_defined m (rows df) (Hs m (rows df) eq_refl)) as Hd.
    destruct (predict_demand m (rows df)) as [res | e |]; simpl bind;
      [discriminate | discriminate | contradiction].
Qed.

(** * Worked values *)

(** The product is taken in binary64: 50 * 1.15 is 57.49999999999999 and
    rounds to 57, where the exact 57.5 would round to 58. *)
Example buffered_50 :
  PyFloat.to_string (F64.mul (F64.of_Z 50) buffer) = "57.49999999999999"
  /\ F64.rint_Z (F64.mul (F64.of_Z 50) buffer) = Some 57
  /\ F64.nearest_even (50 * 115) 100 = 58.
Proof. vm_compute. repeat split. Qed.

(** The record of type BAJU_NO_3_LELAKI and size "2xl" sets the indicator
    column [size_XXL], and only in its own row. *)
Example one_hot_size_XXL :
  column_of
    (get_dummies (map (prepared_row Sample.batch) (survivors Sample.batch)))
    "size_XXL"
  = Some [true; false; false; false].
Proof. vm_compute. reflexivity. Qed.

(** The run on the sample batch. *)
Example sample_run :
  main Sample.path (Loaded Sample.scorer) (Records Sample.batch)
  = Exit (success_output Sample.recommendations) 0.
Proof. vm_compute. reflexivity. Qed.

(** A model file that is missing is reported with its own message. *)
Example missing_model_file :
  main Sample.path NoFile (Records Sample.batch)
  = Exit
      (error_output "Model file not found: models/uniform_forecast.pkl"
         "Model file not found. Please ensure the model is uploaded to models/uniform_forecast.pkl")
      1.
Proof. reflexivity. Qed.

(** A prediction that is not a number has no integer value: the cast is
    not defined and the embedding says nothing about such a run. *)
Example nan_prediction :
  main Sample.path (Loaded Sample.undecided) (Records Sample.batch) = Unspecified.
Proof. vm_compute. reflexivity. Qed.

(** * Further properties *)

(** ** The ordinal encoders *)





Lemma encode_category_cases (s : string) :
  (s = "Uniform No 3" /\ encode_category (PStr s) = 0)
  \/ (s = "Uniform No 4" /\ encode_category (PStr s) = 1)
  \/ (In s ["T-Shirt"; "T Shirt"; "TShirt"] /\ encode_category (PStr s) = 2)
  \/ (~ In s ["Uniform No 3"; "Uniform No 4"; "T-Shirt"; "T Shirt"; "TShirt"]
      /\ encode_category (PStr s) = -1).
Proof.
  unfold encode_category, PyStr.dict_get_default, category_map.
  cbn [PyStr.dict_get].
  destruct (String.eqb_spec "Others" s) as [<- | H1].
  { right; right; right. split; [| reflexivity]. simpl. intuition discriminate. }
  destruct (String.eqb_spec "TShirt" s) as [<- | H2].
  { right; right; left. split; [simpl; tauto | reflexivity]. }
  destruct (String.eqb_spec "T Shirt" s) as [<- | H3].
  { right; right; left. split; [simpl; tauto | reflexivity]. }
  destruct (String.eqb_spec "T-Shirt" s) as [<- | H4].
  { right; right; left. split; [simpl; tauto | reflexivity]. }
  destruct (String.eqb_spec "Uniform No 4" s) as [<- | H5].
  { right; left. split; reflexivity. }
  destruct (String.eqb_spec "Uniform No 3" s) as [<- | H6].
  { left. split; reflexivity. }
  right; right; right. split; [| reflexivity]. simpl. intuition congruence.
Qed.

(** X2.  [encode_category] gives one of the codes -1, 0, 1, 2; the code
    is -1 exactly when the category is not one of the five names
    "Uniform No 3", "Uniform No 4", "T-Shirt", "T Shirt", "TShirt" (so
    "Others" is encoded like an unknown category), and it is 2 exactly
    for the three spellings of the T-shirt. *)
Theorem encode_category_codes (v : pyval) :
  (encode_category v = -1 \/ encode_category v = 0
   \/ encode_category v = 1 \/ encode_category v = 2)
  /\ (encode_category v = -1 <->
      forall s, v = PStr s ->
        ~ In s ["Uniform No 3"; "Uniform No 4"; "T-Shirt"; "T Shirt"; "TShirt"])
  /\ (encode_category v = 2 <->
      exists s, v = PStr s /\ In s ["T-Shirt"; "T Shirt"; "TShirt"]).
Proof.
  destruct v as [| s | z | x].
  2:{ destruct (encode_category_cases s) as [[-> Hc] | [[-> Hc] | [[Hin Hc] | [Hnin Hc]]]];
        rewrite Hc; (split; [tauto|]); split; split.
      - discriminate.
      - intros H. exfalso. apply (H _ eq_refl). simpl. tauto.
      - discriminate.
      - intros (s' & Hs' & Hin). injection Hs' as <-. simpl in Hin.
        intuition discriminate.
      - discriminate.
      - intros H. exfalso. apply (H _ eq_refl). simpl. tauto.
      - discriminate.
      - intros (s' & Hs' & Hin). injection Hs' as <-. simpl in Hin.
        intuition discriminate.
      - discriminate.
      - intros H. exfalso. apply (H _ eq_refl). simpl in *. tauto.
      - intros _. exists s. split; [reflexivity | assumption].
      - reflexivity.
      - intros _ s' Hs'. injection Hs' as <-. assumption.
      - reflexivity.
      - discriminate.
      - intros (s' & Hs' & Hin). injection Hs' as <-. exfalso. apply Hnin.
        simpl in *. tauto. }
  all: split; [left; reflexivity|]; split; split; try discriminate;
    try reflexivity;
    try (intros _ s Hs; discriminate Hs);
    try (intros (s & Hs & _); discriminate Hs).
Qed.

Lemma encode_category_codes_witness :
  encode_category (PStr "Others") = -1 /\ encode_category (PStr "T Shirt") = 2.
Proof.
  destruct (encode_category_codes (PStr "Others")) as (_ & Hunknown & _).
  destruct (encode_category_codes (PStr "T Shirt")) as (_ & _ & Hshirt).
  split.
  - apply Hunknown. intros s Hs. injection Hs as <-. simpl. intuition discriminate.
  - apply Hshirt. exists "T Shirt". split; [reflexivity | simpl; tauto].
Defined.

(** No token of the size table reads as a number, nor does the empty
    text. *)
Lemma numeric_text_is_no_token (s : string) (v : F64.float) :
  PyFloat.of_string s = Some v ->
  PyStr.dict_get encode_size_map s = None /\ String.eqb s "" = false.
Proof.
  intros Hv. split.
  - unfold encode_size_map. cbn [PyStr.dict_get].
    repeat match goal with
           | |- context [String.eqb ?k s] =>
               destruct (String.eqb_spec k s) as [<- | ?];
               [vm_compute in Hv; discriminate Hv|]
           end.
    reflexivity.
  - destruct (String.eqb_spec s "") as [-> | ?]; [| reflexivity].
    vm_compute in Hv. discriminate Hv.
Qed.

(** X3.  A size given as text that reads as a number is encoded as that
    number is: [encode_size(s) = encode_size(float(s))]. *)
Theorem encode_size_reads_numbers (s : string) (v : F64.float) :
  py_float (PStr s) = Some v ->
  encode_size (PStr s) = encode_size (PFloat v).
Proof.
  intros Hv. simpl in Hv.
  destruct (numeric_text_is_no_token s v Hv) as [Hd He].
  unfold encode_size, encode_size_numeric. cbn [isna is_None orb py_float].
  rewrite Hd, He, Hv.
  destruct v as [sg | sg | | sg m e]; try reflexivity.
Qed.

Lemma encode_size_reads_numbers_witness :
  encode_size (PStr " 9.5 ") = encode_size (PFloat (F64.of_decimal false 95 (-1))).
Proof. apply (encode_size_reads_numbers " 9.5 "). reflexivity. Defined.

Lemma range_constants :
  f4 = S754_finite false 4503599627370496 (-50)
  /\ f13 = S754_finite false 7318349394477056 (-49)
  /\ f6_5 = S754_finite false 7318349394477056 (-50)
  /\ f8_0 = S754_finite false 4503599627370496 (-49).
Proof. vm_compute. repeat split. Qed.

Lemma leb_finite_pos (m1 m2 : positive) (e1 e2 : Z) :
  F64.leb (S754_finite false m1 e1) (S754_finite false m2 e2) = true <->
  e1 < e2 \/ (e1 = e2 /\ Zpos m1 <= Zpos m2).
Proof.
  unfold F64.leb, SFleb, SFcompare. rewrite Pos.compare_cont_spec.
  change (Zpos m1 <= Zpos m2) with (m1 <= m2)%positive.
  destruct (Z.compare_spec e1 e2) as [He | He | He].
  - destruct (Pos.compare_spec m1 m2) as [Hm | Hm | Hm]; simpl;
      split; try discriminate; try lia; intros _; right; split; lia.
  - split; [intros _; now left | reflexivity].
  - split; [discriminate | lia].
Qed.

(** The test for [6.5, 8.0] can only succeed where the test for [4, 13]
    has succeeded before it. *)
Lemma beret_test_is_shadowed (v : F64.float) :
  F64.leb f6_5 v && F64.leb v f8_0 = true ->
  F64.leb f4 v && F64.leb v f13 = true.
Proof.
  destruct range_constants as (H4 & H13 & H65 & H8).
  rewrite H4, H13, H65, H8.
  destruct v as [s | s | | s m e].
  - discriminate.
  - destruct s; discriminate.
  - discriminate.
  - destruct s; [discriminate|].
    intros H. apply andb_prop in H. destruct H as [H1 H2].
    apply leb_finite_pos in H1, H2.
    apply andb_true_intro. split; apply leb_finite_pos; lia.
Qed.

(** X4.  On a float, [encode_size] is -1 for NaN and the infinities and
    otherwise the integer part of the value, plus 6 when the value lies
    in [4, 13]: no value is encoded by the rule written for [6.5, 8.0]. *)
Theorem encode_size_of_float (v : F64.float) :
  encode_size (PFloat v)
  = match py_int v with
    | None => -1
    | Some t => if F64.leb f4 v && F64.leb v f13 then t + 6 else t
    end.
Proof.
  unfold encode_size, encode_size_numeric. cbn [isna is_None orb py_float].
  destruct (F64.isnan v) eqn:Hnan.
  - destruct v; try discriminate. reflexivity.
  - cbn [orb]. destruct (F64.leb f4 v && F64.leb v f13) eqn:Hshoe.
    + destruct (py_int v); reflexivity.
    + destruct (F64.leb f6_5 v && F64.leb v f8_0) eqn:Hberet.
      * apply beret_test_is_shadowed in Hberet. congruence.
      * destruct (py_int v); reflexivity.
Qed.

(** ** Text normalisation *)

Lemma upper_char_idempotent (c : ascii) :
  PyStr.upper_char (PyStr.upper_char c) = PyStr.upper_char c.
Proof. destruct c as [[] [] [] [] [] [] [] []]; reflexivity. Qed.

Lemma isspace_upper_char (c : ascii) :
  PyStr.isspace (PyStr.upper_char c) = PyStr.isspace c.
Proof. destruct c as [[] [] [] [] [] [] [] []]; reflexivity. Qed.

Lemma upper_idempotent (s : string) : PyStr.upper (PyStr.upper s) = PyStr.upper s.
Proof.
  induction s as [| c s IH]; simpl; [reflexivity|].
  now rewrite upper_char_idempotent, IH.
Qed.

Lemma lstrip_upper (s : string) :
  PyStr.lstrip (PyStr.upper s) = PyStr.upper (PyStr.lstrip s).
Proof.
  induction s as [| c s IH]; simpl; [reflexivity|].
  rewrite isspace_upper_char. destruct (PyStr.isspace c); [assumption | reflexivity].
Qed.

Lemma rstrip_upper (s : string) :
  PyStr.rstrip (PyStr.upper s) = PyStr.upper (PyStr.rstrip s).
Proof.
  induction s as [| c s IH]; simpl; [reflexivity|].
  rewrite IH, isspace_upper_char.
  destruct (PyStr.rstrip s) as [| d t]; simpl; [| reflexivity].
  destruct (PyStr.isspace c); reflexivity.
Qed.

Lemma strip_upper (s : string) :
  PyStr.strip (PyStr.upper s) = PyStr.upper (PyStr.strip s).
Proof. unfold PyStr.strip. now rewrite lstrip_upper, rstrip_upper. Qed.

Lemma lstrip_starts_clean (s : string) : starts_clean (PyStr.lstrip s).
Proof.
  induction s as [| c s IH]; simpl; [exact I|].
  destruct (PyStr.isspace c) eqn:Hc; [assumption | exact Hc].
Qed.

Lemma lstrip_clean (s : string) : starts_clean s -> PyStr.lstrip s = s.
Proof. destruct s as [| c s]; simpl; [reflexivity|]. now intros ->. Qed.

Lemma rstrip_starts_clean (s : string) : starts_clean s -> starts_clean (PyStr.rstrip s).
Proof.
  destruct s as [| c s]; simpl; [trivial|]. intros Hc.
  destruct (PyStr.rstrip s); simpl; [rewrite Hc; exact Hc | exact Hc].
Qed.

Lemma rstrip_cons (c : ascii) (s : string) :
  PyStr.rstrip (String c s)
  = match PyStr.rstrip s with
    | EmptyString => if PyStr.isspace c then EmptyString else String c EmptyString
    | t => String c t
    end.
Proof. reflexivity. Qed.

Lemma rstrip_idempotent (s : string) : PyStr.rstrip (PyStr.rstrip s) = PyStr.rstrip s.
Proof.
  induction s as [| c s IH]; [reflexivity|].
  rewrite rstrip_cons. destruct (PyStr.rstrip s) as [| d t] eqn:Hr.
  - destruct (PyStr.isspace c) eqn:Hc; [reflexivity|].
    rewrite rstrip_cons. simpl PyStr.rstrip. now rewrite Hc.
  - rewrite rstrip_cons, IH. reflexivity.
Qed.

Lemma strip_idempotent (s : string) : PyStr.strip (PyStr.strip s) = PyStr.strip s.
Proof.
  unfold PyStr.strip.
  rewrite (lstrip_clean (PyStr.rstrip (PyStr.lstrip s))).
  - apply rstrip_idempotent.
  - apply rstrip_starts_clean, lstrip_starts_clean.
Qed.

Lemma synonym_fixed (w : string) :
  PyStr.upper (PyStr.strip w) = w ->
  PyStr.upper (PyStr.strip (synonym w)) = synonym w
  /\ synonym (synonym w) = synonym w.
Proof.
  intros Hw.
  destruct (String.eqb_spec w "2XL") as [-> | H2]; [split; reflexivity|].
  destruct (String.eqb_spec w "3XL") as [-> | H3]; [split; reflexivity|].
  assert (Hs : synonym w = w).
  { unfold synonym.
    destruct (String.eqb_spec w "2XL"); [contradiction|].
    destruct (String.eqb_spec w "3XL"); [contradiction|]. reflexivity. }
  rewrite !Hs. split; [assumption | reflexivity].
Qed.

(** X5.  [normalize_cloth_size] is idempotent: a normalised size is
    left as it is by a second normalisation, whatever the value the
    first one was given. *)
Theorem normalize_cloth_size_idempotent (size : pyval) :
  normalize_cloth_size (normalize_cloth_size size) = normalize_cloth_size size.
Proof.
  set (w := PyStr.upper (PyStr.strip (py_str size))).
  assert (Hcase : normalize_cloth_size size = PNone
                  \/ normalize_cloth_size size = PStr (synonym w)).
  { unfold normalize_cloth_size. destruct (isna size || is_None size); [now left|].
    right. now rewrite cloth_size_map_synonym. }
  destruct Hcase as [-> | ->]; [reflexivity|].
  assert (Hw : PyStr.upper (PyStr.strip w) = w).
  { subst w. now rewrite strip_upper, upper_idempotent, strip_idempotent. }
  destruct (synonym_fixed w Hw) as [H1 H2].
  unfold normalize_cloth_size. cbn [isna is_None orb py_str].
  now rewrite cloth_size_map_synonym, H1, H2.
Qed.

(** ** The frame *)



Lemma prepare_features_with_columns (data : list record) :
  has_column r_type data || has_column r_uniform_type data = true ->
  has_column r_size data = true ->
  prepare_features data
  = if (List.length (survivors data) =? 0)%nat then
      Raise (ValueError "No valid data after filtering null sizes")
    else
      Ok {| has_type := has_column r_type data;
            has_uniform_type := has_column r_uniform_type data;
            has_category := has_column r_category data;
            rows := map (prepared_row data) (survivors data) |}.
Proof.
  intros Hc Hs. unfold prepare_features.
  assert (Hutg :
    (if has_column r_type data then Ok (map (fun r => cell (r_type r)) data)
     else if has_column r_uniform_type data
          then Ok (map (fun r => cell (r_uniform_type r)) data)
          else Raise (ValueError
            "historical_data must contain 'type' or 'uniform_type' column"))
    = Ok (map (type_cell data) data)).
  { unfold type_cell. destruct (has_column r_type data); [reflexivity|].
    simpl in Hc. now rewrite Hc. }
  rewrite Hutg, Hs. cbn [bind negb].
  rewrite normalize_sizes_map by now rewrite !length_map.
  rewrite map_combine_map, zip_rows_map, filter_map_comm. simpl size_normalized.
  change (filter (fun a => notna (normalize_row_size (type_cell data a) (cell (r_size a)))) data)
    with (survivors data).
  rewrite length_map, map_map. reflexivity.
Qed.

(** X7.  [prepare_features] checks, in this order, that the batch has a
    [type] or a [uniform_type] column, that it has a [size] column, and
    that some record survives; each failed check raises its own
    [ValueError], and when all three hold the frame is the surviving
    records in order, each with its normalised size in text form. *)
Theorem prepare_features_outcome (data : list record) :
  (has_column r_type data || has_column r_uniform_type data = false ->
   prepare_features data
   = Raise (ValueError "historical_data must contain 'type' or 'uniform_type' column"))
  /\ (has_column r_type data || has_column r_uniform_type data = true ->
      has_column r_size data = false ->
      prepare_features data
      = Raise (ValueError "historical_data must contain 'size' column"))
  /\ (has_column r_type data || has_column r_uniform_type data = true ->
      has_column r_size data = true -> survivors data = [] ->
      prepare_features data
      = Raise (ValueError "No valid data after filtering null sizes"))
  /\ (has_column r_type data || has_column r_uniform_type data = true ->
      has_column r_size data = true -> survivors data <> [] ->
      prepare_features data
      = Ok {| has_type := has_column r_type data;
              has_uniform_type := has_column r_uniform_type data;
              has_category := has_column r_category data;
              rows := map (prepared_row data) (survivors data) |}).
Proof.
  split; [| split; [| split]].
  - intros Hc. apply orb_false_elim in Hc. destruct Hc as [Ht Hu].
    unfold prepare_features. now rewrite Ht, Hu.
  - intros Hc Hs. unfold prepare_features.
    destruct (has_column r_type data); cbn [bind].
    + now rewrite Hs.
    + simpl in Hc. rewrite Hc. cbn [bind]. now rewrite Hs.
  - intros Hc Hs Hnone. rewrite prepare_features_with_columns by assumption.
    now rewrite Hnone.
  - intros Hc Hs Hsome. rewrite prepare_features_with_columns by assumption.
    destruct (survivors data); [contradiction | reflexivity].
Qed.

Lemma prepare_features_outcome_witness :
  prepare_features [Sample.item "BOOT" (Text "wide")]
  = Raise (ValueError "No valid data after filtering null sizes")
  /\ prepare_features
       [{| r_type := Text "BOOT"; r_uniform_type := Absent; r_size := Absent;
           r_category := Absent |}]
     = Raise (ValueError "historical_data must contain 'size' column")
  /\ prepare_features
       [{| r_type := Absent; r_uniform_type := Absent; r_size := Text "9";
           r_category := Text "Others" |}]
     = Raise (ValueError "historical_data must contain 'type' or 'uniform_type' column")
  /\ prepare_features Sample.batch
     = Ok {| has_type := has_column r_type Sample.batch;
             has_uniform_type := has_column r_uniform_type Sample.batch;
             has_category := has_column r_category Sample.batch;
             rows := map (prepared_row Sample.batch) (survivors Sample.batch) |}.
Proof.
  split; [| split; [| split]].
  - apply (proj1 (proj2 (proj2 (prepare_features_outcome
                                  [Sample.item "BOOT" (Text "wide")]))));
      reflexivity.
  - apply (proj1 (proj2 (prepare_features_outcome
                           [{| r_type := Text "BOOT"; r_uniform_type := Absent;
                               r_size := Absent; r_category := Absent |}])));
      reflexivity.
  - apply (proj1 (prepare_features_outcome
                    [{| r_type := Absent; r_uniform_type := Absent;
                        r_size := Text "9"; r_category := Text "Others" |}]));
      reflexivity.
  - apply (proj2 (proj2 (proj2 (prepare_features_outcome Sample.batch))));
      try reflexivity.
    discriminate.
Defined.

(** ** One-hot cells *)

Lemma insert_sorted_In (s x : string) (l : list string) :
  In x (insert_sorted s l) <-> x = s \/ In x l.
Proof.
  induction l as [| y l IH]; simpl.
  - intuition.
  - destruct (String.compare s y) eqn:Hc; simpl.
    + apply String.compare_eq_iff in Hc. subst y. intuition.
    + intuition.
    + rewrite IH. intuition.
Qed.

Lemma categories_In (col : list pyval) (v : string) :
  In v (categories col) <-> In (PStr v) col.
Proof.
  induction col as [| c col IH]; simpl; [tauto|].
  destruct c as [| s | z | x]; try (rewrite IH; intuition discriminate).
  rewrite insert_sorted_In, IH. intuition congruence.
Qed.

Lemma dummies_In (prefix : string) (col : list pyval) (c : string * list bool) :
  In c (dummies prefix col) <->
  exists v, In (PStr v) col /\ c = (prefix ++ "_" ++ v, map (is_value v) col).
Proof.
  unfold dummies. rewrite in_map_iff. split.
  - intros (v & <- & Hv). exists v. split; [now apply categories_In | reflexivity].
  - intros (v & Hv & ->). exists v. split; [reflexivity | now apply categories_In].
Qed.

Lemma append_inj_l (p a b : string) : (p ++ a = p ++ b)%string -> a = b.
Proof. induction p as [| c p IH]; simpl; [trivial|]. intros H. injection H as H. auto. Qed.

Lemma nth_map_is_value (v : string) (f : row -> pyval) (df : list row) (i : nat) (r : row) :
  nth_error df i = Some r ->
  nth i (map (is_value v) (map f df)) false = is_value v (f r).
Proof.
  revert i. induction df as [| r0 df IH]; intros [| i]; simpl; try discriminate.
  - intros H; injection H as ->. reflexivity.
  - apply IH.
Qed.

(** Every cell of the batch's indicator table is the indicator of its
    row for the name of its column. *)
Lemma dummy_cell (df : list row) (c : string * list bool) (i : nat) (r : row) :
  In c (get_dummies df) -> nth_error df i = Some r ->
  nth i (snd c) false = row_feature (fst c) r.
Proof.
  intros Hc Hi. unfold get_dummies in Hc. apply in_app_or in Hc.
  destruct Hc as [Hc | Hc]; apply dummies_In in Hc; destruct Hc as (v & _ & ->);
    cbn [fst snd]; rewrite (nth_map_is_value v _ df i r Hi); unfold row_feature.
  - assert (Hsize : match size r with
                    | PStr s => String.eqb ("uniform_type_gendered" ++ "_" ++ v) ("size_" ++ s)
                    | _ => false
                    end = false).
    { destruct (size r); reflexivity. }
    rewrite Hsize, orb_false_r.
    destruct (uniform_type_gendered r) as [| t | z | x]; try reflexivity.
    simpl is_value. destruct (String.eqb_spec t v) as [-> | Hne].
    + symmetry. apply String.eqb_refl.
    + symmetry. apply String.eqb_neq. intros H.
      apply (append_inj_l "uniform_type_gendered_") in H. congruence.
  - assert (Htype : match uniform_type_gendered r with
                    | PStr t => String.eqb ("size" ++ "_" ++ v) ("uniform_type_gendered_" ++ t)
                    | _ => false
                    end = false).
    { destruct (uniform_type_gendered r); reflexivity. }
    rewrite Htype, orb_false_l.
    destruct (size r) as [| s | z | x]; try reflexivity.
    simpl is_value. destruct (String.eqb_spec s v) as [-> | Hne].
    + symmetry. apply String.eqb_refl.
    + symmetry. apply String.eqb_neq. intros H.
      apply (append_inj_l "size_") in H. congruence.
Qed.

(** A row's own type and size have their columns in the table. *)
Lemma own_columns (df : list row) (r : row) (feat : string) :
  In r df -> row_feature feat r = true ->
  exists c, In c (get_dummies df) /\ fst c = feat.
Proof.
  intros Hin Hf. unfold row_feature in Hf. apply orb_prop in Hf.
  destruct Hf as [Hf | Hf].
  - destruct (uniform_type_gendered r) as [| t | z | x] eqn:Ht; try discriminate.
    apply String.eqb_eq in Hf. subst feat.
    exists ("uniform_type_gendered" ++ "_" ++ t,
            map (is_value t) (map uniform_type_gendered df)).
    split; [| reflexivity]. unfold get_dummies. apply in_or_app. left.
    apply dummies_In. exists t. split; [| reflexivity].
    apply in_map_iff. exists r. split; assumption.
  - destruct (size r) as [| s | z | x] eqn:Hs; try discriminate.
    apply String.eqb_eq in Hf. subst feat.
    exists ("size" ++ "_" ++ s, map (is_value s) (map size df)).
    split; [| reflexivity]. unfold get_dummies. apply in_or_app. right.
    apply dummies_In. exists s. split; [| reflexivity].
    apply in_map_iff. exists r. split; assumption.
Qed.

Lemma aligned_cell_row_feature (df : list row) (feat : string) (i : nat) (r : row) :
  nth_error df i = Some r ->
  aligned_cell (get_dummies df) feat i = float_of_bool (row_feature feat r).
Proof.
  intros Hi. unfold aligned_cell, column_of.
  destruct (find (fun c => String.eqb (fst c) feat) (get_dummies df)) as [c |] eqn:Hf;
    simpl option_map.
  - apply find_some in Hf. destruct Hf as [Hc Hn]. apply String.eqb_eq in Hn.
    rewrite (dummy_cell df c i r Hc Hi), Hn. reflexivity.
  - destruct (row_feature feat r) eqn:Hr; [| reflexivity]. exfalso.
    destruct (own_columns df r feat) as (c & Hc & Hn);
      [eapply nth_error_In; eassumption | assumption |].
    pose proof (find_none _ _ Hf c Hc) as Hnone. simpl in Hnone.
    rewrite Hn, String.eqb_refl in Hnone. discriminate.
Qed.

Lemma map_seq_nth_error {A B : Type} (F : nat -> B) (G : A -> B) (l : list A) :
  (forall i a, nth_error l i = Some a -> F i = G a) ->
  map F (seq 0 (List.length l)) = map G l.
Proof.
  revert F. induction l as [| a l IH]; intros F HF; simpl; [reflexivity|].
  rewrite (HF 0%nat a eq_refl). f_equal.
  rewrite <- seq_shift, map_map. apply IH. intros i b Hi. apply (HF (S i)). exact Hi.
Qed.

(** X8.  With a vocabulary, the row of the matrix for a row of the
    frame depends on that row and on the vocabulary only, not on the rest
    of the batch: its cell under a vocabulary entry is 1 when the entry
    is ["uniform_type_gendered_" ++ type] or ["size_" ++ size] of the
    row, and 0 otherwise. *)
Theorem matrix_rows_are_batch_independent (m : model) (df : list row)
    (vocabulary : list string) :
  expected_features_of m = Some vocabulary ->
  feature_matrix m df
  = map (fun r => map (fun feat => float_of_bool (row_feature feat r)) vocabulary) df.
Proof.
  intros Hv. rewrite (feature_matrix_aligned m df vocabulary Hv).
  apply map_seq_nth_error. intros i r Hi. apply map_ext. intros feat.
  now apply aligned_cell_row_feature.
Qed.

Lemma matrix_rows_are_batch_independent_witness :
  feature_matrix Sample.scorer
    (map (prepared_row Sample.batch) (survivors Sample.batch))
  = map (fun r =>
           map (fun feat => float_of_bool (row_feature feat r))
             ["size_XXL"; "size_9.0"; "size_S"; "uniform_type_gendered_BOOT"])
      (map (prepared_row Sample.batch) (survivors Sample.batch)).
Proof.
  apply (matrix_rows_are_batch_independent Sample.scorer). reflexivity.
Defined.

(** X9.  Without a vocabulary the matrix is the batch's indicator
    table: one column per distinct type and per distinct size of the
    batch, and in each row the cell of a column is 1 exactly when the
    column is that of the row's own type or of its own size, both of
    which have a column. *)
Theorem batch_table_is_one_hot (m : model) (df : list row) :
  expected_features_of m = None ->
  feature_matrix m df
  = map (fun r => map (fun c => float_of_bool (row_feature (fst c) r)) (get_dummies df)) df
  /\ List.length (get_dummies df)
     = (List.length (categories (map uniform_type_gendered df))
        + List.length (categories (map size df)))%nat
  /\ (forall r feat, In r df -> row_feature feat r = true ->
        exists values, column_of (get_dummies df) feat = Some values).
Proof.
  intros Hv. split; [| split].
  - unfold feature_matrix. rewrite Hv. unfold values_of, nan_to_num.
    rewrite map_map. apply map_seq_nth_error. intros i r Hi.
    rewrite map_map. apply map_ext_in. intros c Hc.
    rewrite (dummy_cell df c i r Hc Hi).
    destruct (row_feature (fst c) r); reflexivity.
  - unfold get_dummies, dummies. now rewrite length_app, !length_map.
  - intros r feat Hin Hf. destruct (own_columns df r feat Hin Hf) as (c & Hc & Hn).
    unfold column_of.
    destruct (find (fun c0 => String.eqb (fst c0) feat) (get_dummies df)) as [c' |] eqn:Hfind.
    + eexists. reflexivity.
    + pose proof (find_none _ _ Hfind c Hc) as Hnone. simpl in Hnone.
      rewrite Hn, String.eqb_refl in Hnone. discriminate.
Qed.

Lemma batch_table_is_one_hot_witness :
  let df := map (prepared_row Sample.batch) (survivors Sample.batch) in
  feature_matrix Sample.broken df
  = map (fun r => map (fun c => float_of_bool (row_feature (fst c) r)) (get_dummies df)) df
  /\ List.length (get_dummies df)
     = (List.length (categories (map uniform_type_gendered df))
        + List.length (categories (map size df)))%nat
  /\ (forall r feat, In r df -> row_feature feat r = true ->
        exists values, column_of (get_dummies df) feat = Some values).
Proof.
  intros df. apply (batch_table_is_one_hot Sample.broken df). reflexivity.
Defined.

(** ** Predictions and rows *)



Lemma mapM_length {A B : Type} (f : A -> result B) (l : list A) (l' : list B) :
  mapM f l = Ok l' -> List.length l' = List.length l.
Proof.
  intros H. apply mapM_Forall2 in H. symmetry. eapply Forall2_length; eassumption.
Qed.



(** X11.  A model that returns an empty vector is treated like a model
    that raises: every row gets the fallback demand 2 and stock 2. *)
Theorem empty_prediction_falls_back (m : model) (df : list row) :
  is_empty_vector (predict m (feature_matrix m df)) = true ->
  predict_demand m df = Ok (map fallback_row df).
Proof.
  intros He.
  assert (Hp : predictions_or_fallback m (feature_matrix m df) (List.length df)
               = IntVector (repeat 2 (List.length df))).
  { unfold predictions_or_fallback.
    destruct (predict m (feature_matrix m df)) as [v | v | msg]; try reflexivity;
      (destruct v; [reflexivity | discriminate He]). }
  unfold predict_demand.
  rewrite Hp. cbn [nonnegative_ints bind].
  rewrite map_repeat. change (Z.max 2 0) with 2.
  rewrite repeat_length, Nat.eqb_refl. cbn [negb].
  rewrite mapM_buffered_twos. cbn [bind].
  now rewrite attach_twos.
Qed.

(** X12.  A model that returns a vector which is not empty and has not
    one value per row makes [predict_demand] raise a [ValueError] about
    the two lengths; the run then prints the error object and exits with
    status 1. *)
Theorem wrong_length_fails (path : string) (m : model) (data : list record)
    (df : frame) (p : prediction) :
  prepare_features data = Ok df ->
  predict m (feature_matrix m (rows df)) = p ->
  sane_prediction p ->
  forall k,
    (p = IntVector k \/ exists v, p = FloatVector v /\ List.length v = List.length k) ->
    k <> [] -> List.length k <> List.length (rows df) ->
    predict_demand m (rows df)
    = Raise (length_mismatch (List.length k) (List.length (rows df)))
    /\ main path (Loaded m) (Records data)
       = Exit (error_output
                 (exn_message (length_mismatch (List.length k) (List.length (rows df))))
                 ("Prediction error: "
                  ++ exn_message (length_mismatch (List.length k) (List.length (rows df)))))
              1.
Proof.
  intros Hp Hpred Hsane k Hk Hne Hlen.
  assert (Hfall : predictions_or_fallback m (feature_matrix m (rows df))
                    (List.length (rows df)) = p).
  { unfold predictions_or_fallback. rewrite Hpred.
    destruct Hk as [-> | (v & -> & Hv)].
    - destruct k; [contradiction | reflexivity].
    - destruct v; [destruct k; [contradiction | discriminate] | reflexivity]. }
  assert (Hd : exists d, nonnegative_ints p = Ok d /\ List.length d = List.length k).
  { destruct Hk as [-> | (v & -> & Hv)].
    - eexists. split; [reflexivity | apply length_map].
    - destruct (nonnegative_ints_defined _ Hsane) as (d & Hd & _).
      exists d. split; [assumption|].
      simpl in Hd. apply mapM_length in Hd. congruence. }
  destruct Hd as (d & Hd & Hdl).
  assert (Hres : predict_demand m (rows df)
                 = Raise (length_mismatch (List.length k) (List.length (rows df)))).
  { unfold predict_demand. rewrite Hfall, Hd. cbn [bind]. rewrite Hdl.
    destruct (List.length k =? List.length (rows df))%nat eqn:He.
    - apply Nat.eqb_eq in He. contradiction.
    - reflexivity. }
  split; [assumption|].
  unfold main, main_body.
  destruct (List.length data =? 0)%nat eqn:Hl.
  { apply length_zero_nil in Hl. subst data. discriminate Hp. }
  cbn [load_model bind]. rewrite Hp. cbn [bind]. rewrite Hres. reflexivity.
Qed.

Lemma empty_prediction_falls_back_witness :
  predict_demand Faulty.silent (map (prepared_row Sample.batch) (survivors Sample.batch))
  = Ok (map fallback_row (map (prepared_row Sample.batch) (survivors Sample.batch))).
Proof. apply (empty_prediction_falls_back Faulty.silent). reflexivity. Defined.

Lemma wrong_length_fails_witness :
  predict_demand Faulty.short (map (prepared_row Sample.batch) (survivors Sample.batch))
  = Raise (ValueError "Length of values (1) does not match length of index (4)")
  /\ main Sample.path (Loaded Faulty.short) (Records Sample.batch)
     = Exit (error_output
               "Length of values (1) does not match length of index (4)"
               "Prediction error: Length of values (1) does not match length of index (4)")
            1.
Proof.
  refine (wrong_length_fails Sample.path Faulty.short Sample.batch
            {| has_type := true; has_uniform_type := false; has_category := false;
               rows := map (prepared_row Sample.batch) (survivors Sample.batch) |}
            (IntVector [7]) _ _ _ [7] _ _ _).
  - vm_compute. reflexivity.
  - reflexivity.
  - simpl. repeat constructor.
  - left. reflexivity.
  - discriminate.
  - simpl. discriminate.
Defined.

(** ** The contract of a run *)

(** X13.  The exit status and the printed object agree: a run exits
    with status 0 and an object whose [success] is true and which holds
    a list of recommendations, or with status 1 and the error object,
    whose [success] is false and which holds no recommendations. *)
Theorem exit_status_matches_success (path : string) (a : artifact) (input : stdin)
    (printed : json) (status : Z) :
  main path a input = Exit printed status ->
  (status = 0
   /\ json_get "success" printed = Some (JBool true)
   /\ exists recs, json_get "recommendations" printed = Some (JArray recs))
  \/ (status = 1
      /\ json_get "success" printed = Some (JBool false)
      /\ json_get "recommendations" printed = None
      /\ exists error message, printed = error_output error message).
Proof.
  intros Hrun.
  assert (Hfail : forall error message,
            json_get "success" (error_output error message) = Some (JBool false)
            /\ json_get "recommendations" (error_output error message) = None)
    by (intros; split; reflexivity).
  destruct input as [msg | | data].
  - destruct (main_not_records path a (Malformed msg) printed status)
      as (e & msg' & -> & ->); [discriminate | assumption |].
    right. destruct (Hfail e msg'). eauto 10.
  - destruct (main_not_records path a NotAList printed status)
      as (e & msg' & -> & ->); [discriminate | assumption |].
    right. destruct (Hfail e msg'). eauto 10.
  - destruct data as [| r0 data].
    + rewrite main_empty in Hrun. injection Hrun as <- <-. left.
      repeat split. eexists. reflexivity.
    + destruct (main_records path a (r0 :: data) printed status) as
        [(m & df & res & _ & _ & _ & -> & ->) | (e & msg' & -> & ->)];
        [discriminate | assumption | |].
      * left. repeat split. eexists. reflexivity.
      * right. destruct (Hfail e msg'). eauto 10.
Qed.

Lemma exit_status_matches_success_witness :
  (0 = 0
   /\ json_get "success" (success_output Sample.recommendations) = Some (JBool true)
   /\ exists recs,
        json_get "recommendations" (success_output Sample.recommendations)
        = Some (JArray recs))
  \/ (0 = 1
      /\ json_get "success" (success_output Sample.recommendations) = Some (JBool false)
      /\ json_get "recommendations" (success_output Sample.recommendations) = None
      /\ exists error message,
           success_output Sample.recommendations = error_output error message).
Proof.
  apply (exit_status_matches_success Sample.path (Loaded Sample.scorer)
           (Records Sample.batch)).
  vm_compute. reflexivity.
Defined.

(** X14.  The model file is looked for only when the batch is not
    empty, and then before the records are examined: with the file
    missing, the empty array still succeeds, every non-empty array is
    answered by the error object that names the missing file and says
    where to put it, and an input that is not an array is answered by
    the error of the input, not of the file. *)
Theorem missing_model_is_reported_first (path : string) (data : list record) :
  main path NoFile (Records [])
  = Exit (JObject [("success", JBool true); ("recommendations", JArray [])]) 0
  /\ (data <> [] ->
      main path NoFile (Records data)
      = Exit (error_output ("Model file not found: " ++ path)
                "Model file not found. Please ensure the model is uploaded to models/uniform_forecast.pkl")
             1)
  /\ main path NoFile NotAList
     = Exit (error_output "Input must be a JSON array of historical data records"
               "Prediction error: Input must be a JSON array of historical data records")
            1.
Proof.
  split; [reflexivity | split; [| reflexivity]].
  intros Hne. unfold main, main_body.
  destruct (List.length data =? 0)%nat eqn:Hl.
  - apply length_zero_nil in Hl. contradiction.
  - reflexivity.
Qed.

Lemma missing_model_is_reported_first_witness :
  main Sample.path NoFile (Records [Sample.item "BOOT" (Text "wide")])
  = Exit (error_output ("Model file not found: " ++ Sample.path)
            "Model file not found. Please ensure the model is uploaded to models/uniform_forecast.pkl")
         1.
Proof.
  apply (missing_model_is_reported_first Sample.path [Sample.item "BOOT" (Text "wide")]).
  discriminate.
Defined.

Lemma filter_length_le {A : Type} (p : A -> bool) (l : list A) :
  (List.length (filter p l) <= List.length l)%nat.
Proof.
  induction l as [| a l IH]; simpl; [lia|]. destruct (p a); simpl; lia.
Qed.

(** X15.  When a run prints a [count], the batch was not empty and the
    count is at least 1 and at most the number of records of the batch:
    a successful run never reports zero recommendations. *)
Theorem count_is_between_one_and_batch_size (path : string) (a : artifact)
    (data : list record) (printed : json) (status : Z) (count : json) :
  main path a (Records data) = Exit printed status ->
  json_get "count" printed = Some count ->
  exists c, count = JInt c /\ 1 <= c <= Z.of_nat (List.length data)
            /\ c = Z.of_nat (List.length (survivors data)).
Proof.
  intros Hrun Hcount. destruct data as [| r0 data].
  - rewrite main_empty in Hrun. injection Hrun as <- _. discriminate Hcount.
  - destruct (main_records path a (r0 :: data) printed status) as
      [(m & df & res & _ & Hp & Hr & -> & _) | (e & msg' & -> & _)];
      [discriminate | assumption | | discriminate Hcount].
    injection Hcount as <-. eexists. split; [reflexivity|].
    rewrite length_map.
    apply predict_demand_rows in Hr. destruct Hr as [Hb _].
    apply prepare_features_rows in Hp. destruct Hp as (Hrows & Hne & _).
    assert (Hlen : List.length res = List.length (survivors (r0 :: data))).
    { rewrite <- (length_map base), Hb, Hrows. apply length_map. }
    rewrite Hlen. pose proof (filter_length_le
      (fun r => notna (canonical_size (r0 :: data) r)) (r0 :: data)) as Hle.
    fold (survivors (r0 :: data)) in Hle.
    destruct (survivors (r0 :: data)) as [| s0 srv]; [contradiction|].
    simpl List.length in *. split; [lia | reflexivity].
Qed.

Lemma count_is_between_one_and_batch_size_witness :
  exists c, JInt 4 = JInt c /\ 1 <= c <= Z.of_nat (List.length Sample.batch)
            /\ c = Z.of_nat (List.length (survivors Sample.batch)).
Proof.
  apply (count_is_between_one_and_batch_size Sample.path (Loaded Sample.scorer)
           Sample.batch (success_output Sample.recommendations) 0).
  - vm_compute. reflexivity.
  - reflexivity.
Defined.

(** ** The stock against the exact product *)

Lemma binary_round_normal (s : bool) (p : positive) :
  Zpos p < 2 ^ 53 ->
  exists m e, binary_round 53 1024 s p 0 = S754_finite s m e
              /\ -52 <= e <= 0 /\ Zpos m = Zpos p * 2 ^ (- e)
              /\ 2 ^ 52 <= Zpos m < 2 ^ 53.
Proof.
  intros Hp. unfold binary_round.
  pose proof (digits2_pos_lower p) as Hl.
  assert (Hd : Zpos (digits2_pos p) <= 53).
  { destruct (Z.le_gt_cases (Zpos (digits2_pos p)) 53) as [H | H]; [assumption|].
    exfalso. assert (2 ^ 53 <= 2 ^ (Zpos (digits2_pos p) - 1)) by (apply Z.pow_le_mono_r; lia).
    lia. }
  assert (Hnormal : forall m, Zpos (digits2_pos m) = 53 -> 2 ^ 52 <= Zpos m < 2 ^ 53).
  { intros m Hm. pose proof (digits2_pos_lower m) as H1.
    pose proof (digits2_pos_bound m) as H2. rewrite Hm in H1, H2. exact (conj H1 H2). }
  unfold fexp, emin, shl_align.
  replace (Z.max (Zpos (digits2_pos p) + 0 - 53) (3 - 1024 - 53))
    with (Zpos (digits2_pos p) - 53) by lia.
  destruct (Zpos (digits2_pos p) - 53 - 0) as [| k | k] eqn:Hk; try lia.
  - exists p, 0. rewrite binary_round_aux_canonical by lia.
    repeat split; try lia; apply Hnormal; lia.
  - assert (Hdig : Zpos (digits2_pos (Pos.iter xO p k)) = 53)
      by (rewrite iter_xO_digits; lia).
    exists (Pos.iter xO p k), (Zpos (digits2_pos p) - 53).
    rewrite binary_round_aux_canonical by (assumption || lia).
    repeat split; try lia; try (apply Hnormal; assumption).
    rewrite iter_xO_value. f_equal. f_equal. lia.
Qed.

(** Rounding a product of two 53-bit mantissas moves it by at most two
    units of the last place of the result. *)
Lemma binary_round_aux_near (s : bool) (M : positive) (E : Z) :
  2 ^ 104 <= Zpos M < 2 ^ 106 -> -104 <= E <= -52 ->
  exists m e,
    binary_round_aux 53 1024 s (Zpos M) E loc_Exact = S754_finite s m e
    /\ E <= e
    /\ Z.abs (Zpos m * 2 ^ (e - E) - Zpos M) <= 2 ^ 54.
Proof.
  intros HM HE. unfold binary_round_aux.
  destruct (shr_fexp_spec (Zpos M) E loc_Exact) as [He1 Hm1]; [lia|].
  pose proof (shr_fexp_bound (Zpos M) E loc_Exact) as Hb1.
  destruct (shr_fexp 53 1024 (Zpos M) E loc_Exact) as [mrs' e1].
  simpl fst in *; simpl snd in *. rewrite <- He1 in Hm1.
  set (m1 := shr_m mrs') in *.
  assert (Hb1' : 0 <= m1 < 2 ^ 53) by (apply Hb1; lia). clear Hb1.
  pose proof (round_nearest_even_bounds m1 (loc_of_shr_record mrs')) as Hr.
  set (m1' := round_nearest_even m1 (loc_of_shr_record mrs')) in *.
  destruct (shr_fexp_spec m1' e1 loc_Exact) as [He2 Hm2]; [lia|].
  destruct (shr_fexp 53 1024 m1' e1 loc_Exact) as [mrs'' e2].
  simpl fst in *; simpl snd in *. rewrite <- He2 in Hm2.
  set (d := Zdigits2 (Zpos M)) in *.
  assert (Hd : 105 <= d <= 106).
  { split.
    - pose proof (digits2_pos_bound M) as Hu. subst d. simpl.
      destruct (Z.le_gt_cases 105 (Zpos (digits2_pos M))) as [H | H]; [assumption|].
      exfalso. assert (2 ^ Zpos (digits2_pos M) <= 2 ^ 104) by (apply Z.pow_le_mono_r; lia).
      lia.
    - apply Zdigits2_le; lia. }
  set (n1 := e1 - E) in *.
  assert (Hn1 : n1 = d - 53).
  { subst n1. unfold fexp, emin in He1. lia. }
  assert (HA : 2 ^ 52 <= 2 ^ n1 <= 2 ^ 53).
  { split; apply Z.pow_le_mono_r; lia. }
  assert (Hm1M : m1 * 2 ^ n1 <= Zpos M < m1 * 2 ^ n1 + 2 ^ n1).
  { rewrite Hm1. pose proof (Z.div_mod (Zpos M) (2 ^ n1) ltac:(lia)) as Hdm.
    pose proof (Z.mod_pos_bound (Zpos M) (2 ^ n1) ltac:(lia)) as Hmod. nia. }
  assert (Hm1lo : 2 ^ 51 <= m1).
  { change (2 ^ 104) with (2 ^ 51 * 2 ^ 53) in HM.
    change (2 ^ 52) with 4503599627370496 in *.
    change (2 ^ 53) with 9007199254740992 in *.
    change (2 ^ 51) with 2251799813685248 in *. nia. }
  assert (Hd1 : 52 <= Zdigits2 m1' <= 54).
  { split.
    - destruct m1' as [| q | q] eqn:Hq; try (change (2 ^ 51) with 2251799813685248 in *; lia).
      simpl. pose proof (digits2_pos_bound q) as Hu.
      destruct (Z.le_gt_cases 52 (Zpos (digits2_pos q))) as [H | H]; [assumption|].
      exfalso. assert (2 ^ Zpos (digits2_pos q) <= 2 ^ 51) by (apply Z.pow_le_mono_r; lia).
      lia.
    - apply Zdigits2_le; try lia;
        try (change (2 ^ 51) with 2251799813685248 in *; lia);
        try (change (2 ^ 54) with (2 * 2 ^ 53); lia). }
  set (n2 := e2 - e1) in *.
  assert (Hn2 : 0 <= n2 <= 1 /\ e2 <= 971).
  { subst n2. unfold fexp, emin in He2. lia. }
  destruct Hn2 as (Hn2 & He2b).
  assert (HB : 1 <= 2 ^ n2 <= 2).
  { destruct (Z.eq_dec n2 0) as [-> | Hnz]; [simpl; lia|].
    assert (n2 = 1) by lia. subst n2. replace (e2 - e1) with 1 by lia. simpl. lia. }
  assert (Hm2b : shr_m mrs'' * 2 ^ n2 <= m1' < shr_m mrs'' * 2 ^ n2 + 2 ^ n2).
  { rewrite Hm2. pose proof (Z.div_mod m1' (2 ^ n2) ltac:(lia)) as Hdm.
    pose proof (Z.mod_pos_bound m1' (2 ^ n2) ltac:(lia)) as Hmod. nia. }
  assert (Hm2pos : 0 < shr_m mrs'').
  { change (2 ^ 51) with 2251799813685248 in *. nia. }
  destruct (shr_m mrs'') as [| m | m] eqn:Hm'; try lia.
  replace (e2 <=? 1024 - 53) with true by (symmetry; apply Z.leb_le; lia).
  exists m, e2. split; [reflexivity|]. split; [lia|].
  assert (Hpow : 2 ^ (e2 - E) = 2 ^ n2 * 2 ^ n1).
  { subst n1 n2. rewrite <- Z.pow_add_r by lia. f_equal. lia. }
  rewrite Hpow.
  change (2 ^ 54) with (2 * 2 ^ 53).
  set (A := 2 ^ n1) in *. set (B := 2 ^ n2) in *.
  change (2 ^ 53) with 9007199254740992 in *.
  change (2 ^ 52) with 4503599627370496 in *.
  assert (Hlo : (m1 - 1) * A <= Zpos m * B * A) by (apply Z.mul_le_mono_nonneg_r; lia).
  assert (Hhi : Zpos m * B * A <= (m1 + 1) * A) by (apply Z.mul_le_mono_nonneg_r; lia).
  rewrite Z.mul_assoc. lia.
Qed.

Lemma nearest_even_near (n d : Z) :
  0 <= n -> 0 < d -> Z.abs (2 * (F64.nearest_even n d * d - n)) <= d.
Proof.
  intros Hn Hd. unfold F64.nearest_even.
  pose proof (Z.div_mod n d ltac:(lia)) as Hdm.
  pose proof (Z.mod_pos_bound n d Hd) as Hmod.
  set (q := n / d) in *. set (r := n mod d) in *.
  assert (Hq : forall c, (q + c) * d - n = c * d - r) by (intros c; lia).
  destruct (2 * r ?= d) eqn:Hc.
  - apply Z.compare_eq in Hc.
    destruct (Z.even q).
    + replace (q * d - n) with (- r) by lia. lia.
    + rewrite Hq. lia.
  - rewrite Z.compare_lt_iff in Hc. replace (q * d - n) with (- r) by lia. lia.
  - rewrite Z.compare_gt_iff in Hc. rewrite Hq. lia.
Qed.

(** The rounded product stays within half a unit of [1.15 * p]. *)
Lemma buffered_near (p k : Z) :
  0 <= p <= 2 ^ 45 ->
  F64.rint_Z (F64.mul (F64.of_Z p) buffer) = Some k ->
  23 * p - 10 <= 20 * k <= 23 * p + 10.
Proof.
  intros Hp Hk. destruct p as [| q | q]; try lia.
  - vm_compute in Hk. assert (k = 0) by congruence. lia.
  - revert Hk.
    unfold F64.of_Z, F64.prec, F64.emax, binary_normalize.
    destruct (binary_round_normal false q) as (mp & ep & -> & Hep & Hmp & Hnorm).
    { eapply Z.le_lt_trans; [apply Hp | reflexivity]. }
    rewrite buffer_value. unfold F64.mul, F64.prec, F64.emax, SFmul. cbn [xorb].
    set (S := 2 ^ (- ep)) in *.
    assert (HS : 2 ^ 7 <= S).
    { assert (HSpos : 0 < S) by (apply Z.pow_pos_nonneg; lia).
      change (2 ^ 52) with (2 ^ 7 * 2 ^ 45) in Hnorm.
      change (2 ^ 7) with 128 in *. change (2 ^ 45) with 35184372088832 in *. nia. }
    destruct (binary_round_aux_near false (mp * 5179139571476070) (ep + -52))
      as (m & e & -> & HeE & Hnear).
    { rewrite Pos2Z.inj_mul.
      change (2 ^ 104) with (2 ^ 52 * 2 ^ 52). change (2 ^ 106) with (2 ^ 53 * 2 ^ 53).
      change (2 ^ 52) with 4503599627370496 in *.
      change (2 ^ 53) with 9007199254740992 in *. nia. }
    { lia. }
    rewrite Pos2Z.inj_mul in Hnear.
    set (E := ep + -52) in *.
    set (C := 2 ^ (- E)).
    assert (HC : C = S * 2 ^ 52).
    { subst C S E. rewrite <- Z.pow_add_r by lia. f_equal. lia. }
    set (W := Zpos m * 2 ^ (e - E)) in *.
    unfold F64.rint_Z. intros Hk.
    assert (Hhalf : Z.abs (2 * (k * C - W)) <= C).
    { destruct (0 <=? e) eqn:He.
      - apply Z.leb_le in He.
        assert (k = Zpos m * 2 ^ e) by congruence. subst k.
        assert (Zpos m * 2 ^ e * C = W) as ->.
        { subst W C. rewrite <- Z.mul_assoc, <- Z.pow_add_r by lia.
          f_equal; f_equal; lia. }
        rewrite Z.sub_diag. simpl. subst C. apply Z.lt_le_incl, Z.pow_pos_nonneg; lia.
      - apply Z.leb_gt in He.
        assert (k = F64.nearest_even (Zpos m) (2 ^ (- e))) by congruence. subst k.
        pose proof (nearest_even_near (Zpos m) (2 ^ (- e)) ltac:(lia)
                      ltac:(apply Z.pow_pos_nonneg; lia)) as Hn.
        set (a := F64.nearest_even (Zpos m) (2 ^ (- e))) in *.
        assert (HCe : C = 2 ^ (- e) * 2 ^ (e - E)).
        { subst C. rewrite <- Z.pow_add_r by lia. f_equal. lia. }
        assert (Hpos : 0 < 2 ^ (e - E)) by (apply Z.pow_pos_nonneg; lia).
        set (u := 2 ^ (- e)) in *. set (t := 2 ^ (e - E)) in *.
        replace (2 * (a * C - W)) with (2 * (a * u - Zpos m) * t)
          by (subst W; rewrite HCe; ring).
        rewrite Z.abs_mul, (Z.abs_eq t) by lia. rewrite HCe.
        apply Z.mul_le_mono_nonneg_r; lia. }
    assert (Hexact : 20 * (Zpos mp * 5179139571476070) - 23 * (Zpos q * C) = - 8 * Zpos mp).
    { rewrite HC, Hmp. change (2 ^ 52) with 4503599627370496. ring. }
    change (2 ^ 54) with 18014398509481984 in *.
    change (2 ^ 53) with 9007199254740992 in *.
    change (2 ^ 52) with 4503599627370496 in *.
    change (2 ^ 7) with 128 in *.
    set (kC := k * C) in *. set (pC := Zpos q * C) in *.
    set (M := Zpos mp * 5179139571476070) in *.
    assert (Hsum : Z.abs (20 * kC - 23 * pC) < 11 * C) by lia.
    assert (HT : Z.abs (20 * k - 23 * Zpos q) * C < 11 * C).
    { replace (20 * kC - 23 * pC) with ((20 * k - 23 * Zpos q) * C) in Hsum
        by (subst kC pC; ring).
      rewrite Z.abs_mul, (Z.abs_eq C) in Hsum by lia. exact Hsum. }
    assert (Z.abs (20 * k - 23 * Zpos q) < 11) by nia.
    lia.
Qed.

(** X16.  The stock never falls short of the demand it was computed
    from.  For a demand of at most [2^45] the recommended stock is at
    least the demand; it is exactly 2 for the demands 0 and 1, and from 2
    upward it lies within half a unit of 1.15 times the demand (so the
    binary64 product and the rounding never lose or add a whole unit). *)
Theorem stock_covers_demand (m : model) (df : list row) (res : list predicted_row)
    (r : predicted_row) :
  predict_demand m df = Ok res ->
  In r res ->
  predicted_demand r <= 2 ^ 45 ->
  predicted_demand r <= recommended_stock r
  /\ (predicted_demand r < 2 -> recommended_stock r = 2)
  /\ (2 <= predicted_demand r ->
      23 * predicted_demand r - 10 <= 20 * recommended_stock r
        <= 23 * predicted_demand r + 10).
Proof.
  intros Hres Hin Hb.
  apply predict_demand_rows in Hres. destruct Hres as [_ Hall].
  rewrite Forall_forall in Hall. destruct (Hall r Hin) as (Hd & k & Hk & Hs).
  pose proof (buffered_near _ _ (conj Hd Hb) Hk) as Hn.
  rewrite Hs. lia.
Qed.

Lemma stock_covers_demand_witness :
  let r := {| base := prepared_row Sample.batch (Sample.item "BOOT" (Text "9"));
              predicted_demand := 25; recommended_stock := 29 |} in
  predicted_demand r <= recommended_stock r
  /\ (predicted_demand r < 2 -> recommended_stock r = 2)
  /\ (2 <= predicted_demand r ->
      23 * predicted_demand r - 10 <= 20 * recommended_stock r
        <= 23 * predicted_demand r + 10).
Proof.
  intros r.
  apply (stock_covers_demand Sample.scorer
           (map (prepared_row Sample.batch) (survivors Sample.batch))
           (attach (map (prepared_row Sample.batch) (survivors Sample.batch))
              [12; 25; 0; 0] [14; 29; 2; 2]) r).
  - vm_compute. reflexivity.
  - right. left. reflexivity.
  - vm_compute. discriminate.
Defined.

Lemma prepare_features_has_type_column (data : list record) (df : frame) :
  prepare_features data = Ok df ->
  has_column r_type data || has_column r_uniform_type data = true.
Proof.
  unfold prepare_features.
  destruct (has_column r_type data); [reflexivity|].
  destruct (has_column r_uniform_type data); [reflexivity | discriminate].
Qed.

(** X17.  The [type] printed for a recommendation is the text of the
    very cell the size family was decided from: the [type] column when
    the batch has one, the [uniform_type] column otherwise.  The default
    ["Unknown"] of [main] is never used, since [prepare_features] has
    already refused a batch with neither column. *)
Theorem type_member_is_the_family_text (path : string) (a : artifact)
    (data : list record) (printed : json) (status : Z) (recs : list json) :
  main path a (Records data) = Exit printed status ->
  json_get "recommendations" printed = Some (JArray recs) ->
  Forall2 (fun rec r => json_get "type" rec = Some (JString (py_str (type_cell data r))))
    recs (survivors data).
Proof.
  intros Hrun Hrecs.
  destruct (main_recommendations _ _ _ _ _ _ Hrun Hrecs) as
    [[Hd ->] | (data' & m & df & res & Hd & _ & _ & Hp & Hres & _ & ->)].
  - injection Hd as ->. constructor.
  - injection Hd as <-.
    pose proof (prepare_features_has_type_column _ _ Hp) as Hc.
    apply predict_demand_rows in Hres. destruct Hres as [Hb _].
    pose proof (recommendations_entries _ _ _ Hp Hb) as He.
    revert He. apply Forall2_impl. intros rec r (_ & Ht & _).
    rewrite Ht. unfold type_text, type_cell, row_get.
    destruct (has_column r_type data); [reflexivity|].
    simpl in Hc. now rewrite Hc.
Qed.

Lemma type_member_is_the_family_text_witness :
  Forall2 (fun rec r =>
             json_get "type" rec = Some (JString (py_str (type_cell Sample.batch r))))
    Sample.recommendations (survivors Sample.batch).
Proof.
  apply (type_member_is_the_family_text Sample.path (Loaded Sample.scorer) Sample.batch
           (success_output Sample.recommendations) 0).
  - vm_compute. reflexivity.
  - reflexivity.
Defined.

(** X18.  The stock grows with the demand.  Of two rows with demands of
    at most [2^45], the one with the larger demand never gets the smaller
    stock, and from a demand of 2 upward it gets a strictly larger one.
    The rows may come from different runs and different models. *)
Theorem stock_is_monotone (m1 m2 : model) (df1 df2 : list row)
    (res1 res2 : list predicted_row) (r1 r2 : predicted_row) :
  predict_demand m1 df1 = Ok res1 -> In r1 res1 ->
  predict_demand m2 df2 = Ok res2 -> In r2 res2 ->
  predicted_demand r1 <= predicted_demand r2 <= 2 ^ 45 ->
  recommended_stock r1 <= recommended_stock r2
  /\ (2 <= predicted_demand r1 < predicted_demand r2 ->
      recommended_stock r1 < recommended_stock r2).
Proof.
  intros H1 Hin1 H2 Hin2 Hd.
  apply predict_demand_rows in H1. destruct H1 as [_ Hall1].
  apply predict_demand_rows in H2. destruct H2 as [_ Hall2].
  rewrite Forall_forall in Hall1, Hall2.
  destruct (Hall1 r1 Hin1) as (Hd1 & k1 & Hk1 & Hs1).
  destruct (Hall2 r2 Hin2) as (Hd2 & k2 & Hk2 & Hs2).
  assert (Hb1 : 0 <= predicted_demand r1 <= 2 ^ 45) by lia.
  assert (Hb2 : 0 <= predicted_demand r2 <= 2 ^ 45) by lia.
  pose proof (buffered_near _ _ Hb1 Hk1) as Hn1.
  pose proof (buffered_near _ _ Hb2 Hk2) as Hn2.
  assert (Heq : predicted_demand r1 = predicted_demand r2 -> k1 = k2).
  { intros E. rewrite E in Hk1. congruence. }
  rewrite Hs1, Hs2.
  destruct (Z.eq_dec (predicted_demand r1) (predicted_demand r2)) as [E | N].
  - specialize (Heq E). subst k2. repeat split; lia.
  - repeat split; lia.
Qed.

Lemma stock_is_monotone_witness :
  let r1 := {| base := prepared_row Sample.batch (Sample.item "BAJU_NO_3_LELAKI" (Text "2xl"));
               predicted_demand := 12; recommended_stock := 14 |} in
  let r2 := {| base := prepared_row Sample.batch (Sample.item "BOOT" (Text "9"));
               predicted_demand := 25; recommended_stock := 29 |} in
  recommended_stock r1 <= recommended_stock r2
  /\ (2 <= predicted_demand r1 < predicted_demand r2 ->
      recommended_stock r1 < recommended_stock r2).
Proof.
  intros r1 r2.
  apply (stock_is_monotone Sample.scorer Sample.scorer
           (map (prepared_row Sample.batch) (survivors Sample.batch))
           (map (prepared_row Sample.batch) (survivors Sample.batch))
           (attach (map (prepared_row Sample.batch) (survivors Sample.batch))
              [12; 25; 0; 0] [14; 29; 2; 2])
           (attach (map (prepared_row Sample.batch) (survivors Sample.batch))
              [12; 25; 0; 0] [14; 29; 2; 2]) r1 r2).
  - vm_compute. reflexivity.
  - left. reflexivity.
  - vm_compute. reflexivity.
  - right. left. reflexivity.
  - vm_compute. split; discriminate.
Defined.
